(** * witr: the process-facts acquisition engine

    A shallow embedding of the three platform files of the engine
    ([proc] package): the container and git detectors and [ReadProcess]
    helpers of the Windows build, the [ps]/[lsof]/[pgrep] samplers of the
    Darwin build, and the tiered Win32 acquisition
    ([GetProcessDetailedInfo]).

    Strings are Go strings, i.e. byte sequences ([String.string]); [int],
    [uint64] and [uintptr] are [Z] with the wrap-around written out;
    [float64] is [spec_float] at precision 53; a nil slice and an empty
    slice are told apart where the code does ([option (list _)]). *)

From Stdlib Require Import ZArith List Bool Ascii String DecimalString Lia.
From Stdlib Require Import Floats.SpecFloat.
Import ListNotations.

Local Open Scope string_scope.
Local Open Scope Z_scope.

Set Implicit Arguments.

(** ** Go's standard library *)

(** The functions of Go's standard library whose result depends on Unicode
    tables, on the host's path syntax or on UTF-16 decoding are an
    interface of the development: every theorem quantified over [Runtime]
    holds whatever these functions compute. *)
Class Runtime : Type := {
  strings_ToLower : string -> string;
  strings_TrimSpace : string -> string;
  strings_Fields : string -> list string;
  strings_EqualFold : string -> string -> bool;
  utf8_RuneCountInString : string -> nat;
  filepath_Join : string -> string -> string;
  filepath_Base : string -> string;
  filepath_Dir : string -> string;
  syscall_UTF16ToString : list Z -> string
}.

(** A value returned, or a run-time panic (index or slice out of range). *)
Inductive outcome (A : Type) : Type :=
| Returned (a : A)
| Panicked.
Arguments Panicked {A}.

(** Go's [error] values, kept structured: [fmt.Errorf] with its format and
    argument, an error coming from the operating system or from [os/exec],
    and [errors.Join]. *)
Inductive errArg : Type :=
| ArgNone
| ArgStr (s : string)
| ArgInt (n : Z).

Inductive error : Type :=
| ErrHost (what : string)
| Errorf (format : string) (arg : errArg)
| ErrorfW (format : string) (wrapped : error)
| ErrJoin (e1 e2 : error).

(** [strings.Contains], [strings.HasPrefix], [strings.TrimPrefix]: byte
    comparisons. *)
Fixpoint strings_Contains (s substr : string) : bool :=
  if prefix substr s then true
  else match s with
       | EmptyString => false
       | String _ s' => strings_Contains s' substr
       end.

Definition strings_HasPrefix (s pre : string) : bool := prefix pre s.

Definition strings_TrimPrefix (s pre : string) : string :=
  if prefix pre s
  then substring (String.length pre) (String.length s - String.length pre) s
  else s.

(** [strings.Split(s, sep)] for a one-byte separator: the pieces between
    the separators, never an empty list. *)
Fixpoint splitByte (sep : ascii) (s cur : string) : list string :=
  match s with
  | EmptyString => [cur]
  | String c s' =>
      if Ascii.eqb c sep then cur :: splitByte sep s' ""
      else splitByte sep s' (cur ++ String c "")
  end.

Definition strings_Split (s : string) (sep : ascii) : list string :=
  splitByte sep s "".

(** [strings.Join(elems, sep)]. *)
Fixpoint strings_Join (elems : list string) (sep : string) : string :=
  match elems with
  | [] => ""
  | [e] => e
  | e :: rest => e ++ sep ++ strings_Join rest sep
  end.

(** [strings.Lines]: the lines of [s], each with its terminating newline;
    a final line without newline is yielded too. *)
Definition newline : ascii := ascii_of_nat 10.

Fixpoint linesFrom (s cur : string) : list string :=
  match s with
  | EmptyString => if String.eqb cur "" then [] else [cur]
  | String c s' =>
      if Ascii.eqb c newline then (cur ++ String c "") :: linesFrom s' ""
      else linesFrom s' (cur ++ String c "")
  end.

Definition strings_Lines (s : string) : list string := linesFrom s "".

(** [strconv.ParseUint(s, 10, 64)] and [strconv.Atoi] (64-bit [int]):
    [None] is a non-nil error. *)
Definition digitOf (c : ascii) : option Z :=
  let n := Z.of_nat (nat_of_ascii c) in
  if (48 <=? n) && (n <=? 57) then Some (n - 48) else None.

Fixpoint parseDigits (s : string) (acc : Z) : option Z :=
  match s with
  | EmptyString => Some acc
  | String c s' =>
      match digitOf c with
      | Some d => parseDigits s' (10 * acc + d)
      | None => None
      end
  end.

Definition parseDecimal (s : string) : option Z :=
  match s with
  | EmptyString => None
  | _ => parseDigits s 0
  end.

Definition strconv_ParseUint (s : string) : option Z :=
  match parseDecimal s with
  | Some n => if n <? 2 ^ 64 then Some n else None
  | None => None
  end.

Definition strconv_Atoi (s : string) : option Z :=
  match s with
  | String "-" s' =>
      match parseDecimal s' with
      | Some n => if n <=? 2 ^ 63 then Some (- n) else None
      | None => None
      end
  | String "+" s' =>
      match parseDecimal s' with
      | Some n => if n <? 2 ^ 63 then Some n else None
      | None => None
      end
  | _ =>
      match parseDecimal s with
      | Some n => if n <? 2 ^ 63 then Some n else None
      | None => None
      end
  end.

(** [fmt]'s [%-4s]: the string, then spaces up to a width counted in
    runes. *)
Fixpoint spaces (n : nat) : string :=
  match n with
  | O => ""
  | S n' => String " " (spaces n')
  end.

Definition fmt_padRight `{Runtime} (width : nat) (s : string) : string :=
  s ++ spaces (width - utf8_RuneCountInString s).

(** *** The runtime on ASCII text and cleaned drive paths

    The instance used to evaluate the code on concrete inputs: on ASCII
    strings its text functions are Go's (white space is tab, newline,
    vertical tab, form feed, carriage return and space; only [A]-[Z] have
    a lower case), and on cleaned absolute Windows paths ([C:\a\b]) its
    path functions are those of [path/filepath]. *)
Module Ascii_runtime.

Definition isSpace (c : ascii) : bool :=
  let n := nat_of_ascii c in
  (((9 <=? n) && (n <=? 13)) || (n =? 32))%nat.

Definition lowerByte (c : ascii) : ascii :=
  let n := nat_of_ascii c in
  if ((65 <=? n) && (n <=? 90))%nat then ascii_of_nat (n + 32) else c.

Fixpoint mapBytes (f : ascii -> ascii) (s : string) : string :=
  match s with
  | EmptyString => EmptyString
  | String c s' => String (f c) (mapBytes f s')
  end.

Definition ToLower (s : string) : string := mapBytes lowerByte s.

Fixpoint fieldsFrom (s cur : string) : list string :=
  match s with
  | EmptyString => if String.eqb cur "" then [] else [cur]
  | String c s' =>
      if isSpace c
      then (if String.eqb cur "" then fieldsFrom s' ""
            else cur :: fieldsFrom s' "")
      else fieldsFrom s' (cur ++ String c "")
  end.

Definition Fields (s : string) : list string := fieldsFrom s "".

Fixpoint trimLeft (s : string) : string :=
  match s with
  | EmptyString => EmptyString
  | String c s' => if isSpace c then trimLeft s' else s
  end.

(** [trimRight s] drops the white space at the end of [s]. *)
Fixpoint trimRight (s : string) : string :=
  match s with
  | EmptyString => EmptyString
  | String c s' =>
      match trimRight s' with
      | EmptyString => if isSpace c then EmptyString else String c EmptyString
      | t => String c t
      end
  end.

Definition TrimSpace (s : string) : string := trimRight (trimLeft s).

Definition EqualFold (s t : string) : bool :=
  String.eqb (ToLower s) (ToLower t).

Definition backslash : ascii := ascii_of_nat 92.

(** The text after the last backslash, and the text before it. *)
Fixpoint lastElem (s cur : string) : string :=
  match s with
  | EmptyString => cur
  | String c s' =>
      if Ascii.eqb c backslash then lastElem s' ""
      else lastElem s' (cur ++ String c "")
  end.

Definition Base (p : string) : string :=
  match lastElem p "" with
  | EmptyString => if String.eqb p "" then "." else String backslash ""
  | b => b
  end.

Definition Dir (p : string) : string :=
  let b := lastElem p "" in
  let d := substring 0 (String.length p - String.length b) p in
  match d with
  | EmptyString => "."
  | _ =>
      (* [C:\] keeps its separator, any other directory loses it *)
      if (String.length d =? 3)%nat then d
      else substring 0 (String.length d - 1) d
  end.

Definition Join (dir name : string) : string :=
  if String.eqb (lastElem dir "") "" then dir ++ name
  else dir ++ String backslash name.

Definition unitToByte (u : Z) : ascii := ascii_of_nat (Z.to_nat u).

Fixpoint UTF16ToString (units : list Z) : string :=
  match units with
  | [] => ""
  | u :: rest =>
      if u =? 0 then "" else String (unitToByte u) (UTF16ToString rest)
  end.

End Ascii_runtime.

Definition AsciiRuntime : Runtime := {|
  strings_ToLower := Ascii_runtime.ToLower;
  strings_TrimSpace := Ascii_runtime.TrimSpace;
  strings_Fields := Ascii_runtime.Fields;
  strings_EqualFold := Ascii_runtime.EqualFold;
  utf8_RuneCountInString := String.length;
  filepath_Join := Ascii_runtime.Join;
  filepath_Base := Ascii_runtime.Base;
  filepath_Dir := Ascii_runtime.Dir;
  syscall_UTF16ToString := Ascii_runtime.UTF16ToString
|}.

(** ** Enrichment detectors (Windows build) *)

Section Detectors.
Context {R : Runtime}.

(** Modelled from the spec: [extractFlagValue] is called by
    [detectContainer] and is not among the sources.  The spec (4.3) has it
    "extract the value following a [--name] flag (or [-p]/[--profile] for
    cluster-bootstrap tools) if present": the command line is cut into its
    white-space separated fields; the value of the first field that is one
    of the flags is the field after it, and the value of a field
    [flag=value] (the form of the spec's own [--name=X]) is the text after
    the equals sign; without such a field the result is empty. *)
Fixpoint flagAssignment (part : string) (flags : list string) : option string :=
  match flags with
  | [] => None
  | flag :: more =>
      if strings_HasPrefix part (flag ++ "=")
      then Some (strings_TrimPrefix part (flag ++ "="))
      else flagAssignment part more
  end.

Fixpoint flagValueIn (parts : list string) (flags : list string) : string :=
  match parts with
  | [] => ""
  | part :: rest =>
      if existsb (String.eqb part) flags
      then match rest with
           | value :: _ => value
           | [] => ""
           end
      else match flagAssignment part flags with
           | Some value => value
           | None => flagValueIn rest flags
           end
  end.

Definition extractFlagValue (cmdline : string) (flags : list string) : string :=
  flagValueIn (strings_Fields cmdline) flags.

(** [findLongHexID] and [resolveContainerName] (which runs a container
    runtime's command) are not among the sources either; they are only
    reached for a [kubepods] command line and stay parameters. *)
Variable findLongHexID : string -> string.
Variable resolveContainerName : string -> string -> string.

(** The [case] of [detectContainer]'s [switch] that is taken: the first
    engine marker, in the order of the source, that the lower-cased
    command line contains. *)
Inductive marker : Type :=
| MDocker | MPodman | MMinikube | MKind | MKubepods | MNerdctl | MContainerd
| MNone.

Definition matchMarker (lowerCmd : string) : marker :=
  if strings_Contains lowerCmd "docker" then MDocker
  else if strings_Contains lowerCmd "podman" then MPodman
  else if strings_Contains lowerCmd "minikube" then MMinikube
  else if strings_Contains lowerCmd "kind" then MKind
  else if strings_Contains lowerCmd "kubepods" then MKubepods
  else if strings_Contains lowerCmd "nerdctl" then MNerdctl
  else if strings_Contains lowerCmd "containerd" then MContainerd
  else MNone.

(** [engine: value] when the flag has a value, the bare name otherwise. *)
Definition named (prefix value bare : string) : outcome string :=
  if String.eqb value "" then Returned bare else Returned (prefix ++ value).

Definition detectContainer (cmdline : string) : outcome string :=
  if String.eqb cmdline "" then Returned ""
  else
    let lowerCmd := strings_ToLower cmdline in
    match matchMarker lowerCmd with
    | MDocker => named "docker: " (extractFlagValue cmdline ["--name"]) "docker"
    | MPodman => named "podman: " (extractFlagValue cmdline ["--name"]) "podman"
    | MMinikube =>
        named "k8s: " (extractFlagValue cmdline ["-p"; "--profile"]) "kubernetes"
    | MKind => named "k8s: " (extractFlagValue cmdline ["--name"]) "kubernetes"
    | MKubepods =>
        let id := findLongHexID cmdline in
        if String.eqb id "" then Returned "kubernetes"
        else
          let name := resolveContainerName id "crictl" in
          if negb (String.eqb name "") then Returned ("k8s: " ++ name)
          else if (String.length id <? 12)%nat then Panicked (* id[:12] *)
          else Returned ("k8s (" ++ substring 0 12 id ++ ")")
    | MNerdctl =>
        named "containerd: " (extractFlagValue cmdline ["--name"]) "containerd"
    | MContainerd =>
        named "containerd: " (extractFlagValue cmdline ["--name"]) "containerd"
    | MNone => Returned ""
    end.

End Detectors.

(** *** The git context detector *)

(** The file system as [os.Stat] and [os.ReadFile] see it: [os_Stat p] is
    [None] when the call fails and [Some isDir] otherwise; [os_ReadFile p]
    is [None] when the call fails. *)
Record FileSystem : Type := {
  os_Stat : string -> option bool;
  os_ReadFile : string -> option string
}.

Section GitContext.
Context {R : Runtime}.
Variable fs : FileSystem.

(** The branch recorded in [gitDir]'s [HEAD] file. *)
Definition readBranch (gitDir : string) : string :=
  let headFile := filepath_Join gitDir "HEAD" in
  match os_ReadFile fs headFile with
  | Some head =>
      let headStr := strings_TrimSpace head in
      if strings_HasPrefix headStr "ref: " then
        let ref := strings_TrimPrefix headStr "ref: " in
        let refParts := strings_Split ref "/" in
        if (0 <? List.length refParts)%nat
        then nth (List.length refParts - 1) refParts ""
        else ""
      else ""
  | None => ""
  end.

(** The body of the [for i := 0; i < 5; i++] loop, [levels] iterations
    from [searchDir]. *)
Fixpoint walkUp (levels : nat) (searchDir : string) : string * string :=
  match levels with
  | O => ("", "")
  | S levels' =>
      let gitDir := filepath_Join searchDir ".git" in
      match os_Stat fs gitDir with
      | Some true =>
          let gitRepo := filepath_Base searchDir in
          let gitBranch := readBranch gitDir in
          (gitRepo, gitBranch)
      | _ =>
          let parent := filepath_Dir searchDir in
          if String.eqb parent searchDir then ("", "")
          else walkUp levels' parent
      end
  end.

Definition detectGitInfo (cwd : string) : string * string :=
  if String.eqb cwd "" then ("", "") else walkUp 5 cwd.

End GitContext.

(** ** Resource sampling (Darwin build) *)

(** [uint64] and 64-bit [int] arithmetic. *)
Definition uint64 (z : Z) : Z := z mod 2 ^ 64.

Definition int64 (z : Z) : Z := (z + 2 ^ 63) mod 2 ^ 64 - 2 ^ 63.

(** [float64]: IEEE 754 binary64. *)
Definition float64 : Type := spec_float.

Definition float64_zero : float64 := S754_zero false.

Definition float64_of_Z (z : Z) : float64 := binary_normalize 53 1024 z 0 false.

Definition float64_div (x y : float64) : float64 := SFdiv 53 1024 x y.

(** [strconv.Itoa]. *)
Definition strconv_Itoa (z : Z) : string :=
  DecimalString.NilZero.string_of_int (Z.to_int z).

(** [model.MemoryInfo], and [model.IOStats] of which this code only ever
    builds the zero value. *)
Record MemoryInfo : Type := {
  RSS : Z;
  RSSMB : float64;
  VMS : Z;
  VMSMB : float64
}.

Definition zeroMemoryInfo : MemoryInfo :=
  {| RSS := 0; RSSMB := float64_zero; VMS := 0; VMSMB := float64_zero |}.

Inductive IOStats : Type := zeroIOStats.

(** The external tools: what [exec.Command(name, args...).Output()] and
    [.CombinedOutput()] return, the output and the error ([None] is
    [nil]).  The environment [readDarwinMemory] gives to [ps]
    ([buildEnvForPS]) is part of what the host answers. *)
Record Host : Type := {
  exec_Output : string -> list string -> string * option error;
  exec_CombinedOutput : string -> list string -> string * option error
}.

Section Darwin.
Context {R : Runtime}.
Variable host : Host.

Definition readDarwinMemory (pid : Z) : MemoryInfo * Z * option error :=
  let memInfo := zeroMemoryInfo in
  let '(out, err) :=
    exec_Output host "ps" ["-p"; strconv_Itoa pid; "-o"; "rss=,vsz=,thcount="] in
  match err with
  | Some e => (memInfo, 0, Some (ErrorfW "ps rss/vsz: %w" e))
  | None =>
      let fields := strings_Fields (strings_TrimSpace out) in
      if (List.length fields <? 3)%nat then
        (memInfo, 0,
         Some (Errorf "ps rss/vsz output missing fields: %q"
                      (ArgStr (strings_TrimSpace out))))
      else
        let memInfo :=
          match strconv_ParseUint (nth 0 fields "") with
          | Some rss =>
              let rssBytes := uint64 (rss * 1024) in
              {| RSS := rssBytes;
                 RSSMB := float64_div (float64_of_Z rssBytes)
                                      (float64_of_Z (1024 * 1024));
                 VMS := VMS memInfo; VMSMB := VMSMB memInfo |}
          | None => memInfo
          end in
        let memInfo :=
          match strconv_ParseUint (nth 1 fields "") with
          | Some vms =>
              let vmsBytes := uint64 (vms * 1024) in
              {| RSS := RSS memInfo; RSSMB := RSSMB memInfo;
                 VMS := vmsBytes;
                 VMSMB := float64_div (float64_of_Z vmsBytes)
                                      (float64_of_Z (1024 * 1024)) |}
          | None => memInfo
          end in
        let threadCount :=
          match strconv_Atoi (nth 2 fields "") with
          | Some n => n
          | None => 0
          end in
        (memInfo, threadCount, None)
  end.

(** [summarizeLsofLine]: [fmt.Sprintf("%s %-4s %s", fd, typ, name)]. *)
Definition summarizeLsofLine (line : string) : string :=
  let fields := strings_Fields line in
  if (List.length fields <? 9)%nat then ""
  else
    let fd := nth 3 fields "" in
    let typ := nth 4 fields "" in
    let name := strings_Join (skipn 8 fields) " " in
    fd ++ " " ++ fmt_padRight 4 typ ++ " " ++ name.

(** The variables of [collectDarwinFDs]'s loop over the lines; [samples]
    is nil as long as it is empty. *)
Record fdScan : Type := {
  count : Z;
  samples : list string;
  skipHdr : bool
}.

Definition fdScanLine (st : fdScan) (line : string) : fdScan :=
  let trimmed := strings_TrimSpace line in
  if String.eqb trimmed "" then st
  else if skipHdr st then
    {| count := count st; samples := samples st; skipHdr := false |}
  else
    let count' := int64 (count st + 1) in
    if (List.length (samples st) <? 10)%nat then
      let sample := summarizeLsofLine trimmed in
      if negb (String.eqb sample "") then
        {| count := count'; samples := samples st ++ [sample];
           skipHdr := false |}
      else {| count := count'; samples := samples st; skipHdr := false |}
    else {| count := count'; samples := samples st; skipHdr := false |}.

Definition fdScanStart : fdScan :=
  {| count := 0; samples := []; skipHdr := true |}.

Definition collectDarwinFDs (pid : Z) : Z * list string * option error :=
  let '(out, err) := exec_Output host "lsof" ["-nP"; "-p"; strconv_Itoa pid] in
  match err with
  | Some e => (0, [], Some (ErrorfW "lsof: %w" e))
  | None =>
      let st := fold_left fdScanLine (strings_Lines out) fdScanStart in
      (count st, samples st, None)
  end.

Definition parseLaunchctlLimitLine (line : string) : Z * bool :=
  let fields := strings_Fields line in
  if (List.length fields <? 2)%nat then (0, false)
  else
    let soft := nth 1 fields "" in
    if strings_EqualFold soft "unlimited" then (0, true)
    else match strconv_ParseUint soft with
         | Some limit => (limit, true)
         | None => (0, false)
         end.

(** The first [maxfiles] line of [launchctl limit] that parses. *)
Fixpoint firstMaxfiles (lines : list string) : option Z :=
  match lines with
  | [] => None
  | line :: rest =>
      if strings_Contains line "maxfiles" then
        match parseLaunchctlLimitLine line with
        | (limit, true) => Some limit
        | (_, false) => firstMaxfiles rest
        end
      else firstMaxfiles rest
  end.

Definition ulimitFallback : Z :=
  match exec_Output host "sh" ["-c"; "ulimit -n"] with
  | (data, None) =>
      match strconv_ParseUint (strings_TrimSpace data) with
      | Some limit => limit
      | None => 0
      end
  | (_, Some _) => 0
  end.

Definition detectDarwinFileLimit : Z :=
  match exec_Output host "launchctl" ["limit"; "maxfiles"] with
  | (data, None) =>
      match firstMaxfiles (strings_Lines data) with
      | Some limit => limit
      | None => ulimitFallback
      end
  | (_, Some _) => ulimitFallback
  end.

Definition childOfLine (children : list Z) (line : string) : list Z :=
  let trimmed := strings_TrimSpace line in
  if String.eqb trimmed "" then children
  else match strconv_Atoi trimmed with
       | Some pidVal => children ++ [pidVal]
       | None => children
       end.

Definition listDarwinChildren (pid : Z) : list Z :=
  match exec_CombinedOutput host "pgrep" ["-P"; strconv_Itoa pid] with
  | (_, Some _) => []
  | (out, None) => fold_left childOfLine (strings_Lines out) []
  end.

Definition ReadExtendedInfo (pid : Z)
  : MemoryInfo * IOStats * list string * Z * Z * list Z * Z * option error :=
  let '(memInfo, threadCount, memErr) := readDarwinMemory pid in
  let '(fdCount, fileDescs, fdErr) := collectDarwinFDs pid in
  let fdLimit := detectDarwinFileLimit in
  let children := listDarwinChildren pid in
  let ioStats := zeroIOStats in
  match memErr, fdErr with
  | Some memErr, Some fdErr =>
      (memInfo, ioStats, fileDescs, fdCount, fdLimit, children, threadCount,
       Some (ErrJoin memErr fdErr))
  | _, _ =>
      (memInfo, ioStats, fileDescs, fdCount, fdLimit, children, threadCount,
       None)
  end.

End Darwin.

(** ** The tiered Win32 acquisition (Windows build) *)

(** Win32 constants and structures. *)
Definition PROCESS_QUERY_INFORMATION : Z := 0x0400.
Definition PROCESS_VM_READ : Z := 0x0010.
Definition PROCESS_QUERY_LIMITED_INFORMATION : Z := 0x1000.
Definition TH32CS_SNAPPROCESS : Z := 0x00000002.

Record processBasicInformation : Type := {
  ExitStatus : Z;
  PebBaseAddress : Z;
  AffinityMask : Z;
  BasePriority : Z;
  UniqueProcessId : Z;
  InheritedFromUniqueProcessId : Z
}.

Record unicodeString : Type := {
  Length : Z;
  MaximumLength : Z;
  Buffer : Z
}.

(** Partial RTL_USER_PROCESS_PARAMETERS; its [CommandLine] is
    [params_CommandLine] here, next to [Win32ProcessInfo]'s. *)
Record rtlUserProcessParameters : Type := {
  Reserved1 : list Z;
  Reserved2 : list Z;
  CurrentDirectoryPath : unicodeString;
  CurrentDirectoryHandle : Z;
  DllPath : unicodeString;
  ImagePathName : unicodeString;
  params_CommandLine : unicodeString;
  Environment : Z
}.

Record PROCESSENTRY32 : Type := {
  Size : Z;
  CntUsage : Z;
  ProcessID : Z;
  DefaultHeapID : Z;
  ModuleID : Z;
  CntThreads : Z;
  ParentProcessID : Z;
  PriClassBase : Z;
  Flags : Z;
  ExeFile : list Z
}.

(** [syscall.Filetime] and [time.Time]: the zero [time.Time{}], or
    [time.Unix(sec, nsec)]. *)
Record Filetime : Type := {
  LowDateTime : Z;
  HighDateTime : Z
}.

Inductive Time : Type :=
| zeroTime
| time_Unix (sec nsec : Z).

(** [Filetime.Nanoseconds]: 100ns ticks since 1601 turned into
    nanoseconds since 1970, in [int64]. *)
Definition Nanoseconds (ft : Filetime) : Z :=
  let nsec := int64 (int64 (Z.shiftl (HighDateTime ft) 32) + LowDateTime ft) in
  let nsec := int64 (nsec - 116444736000000000) in
  int64 (nsec * 100).

(** [Env] is [None] for a nil slice and [Some []] for [[]string{}]. *)
Record Win32ProcessInfo : Type := {
  PPID : Z;
  CommandLine : string;
  Exe : string;
  Cwd : string;
  Env : option (list string);
  StartedAt : Time
}.

Definition zeroWin32ProcessInfo : Win32ProcessInfo :=
  {| PPID := 0; CommandLine := ""; Exe := ""; Cwd := ""; Env := None;
     StartedAt := zeroTime |}.

(** [len(info.Env)]. *)
Definition lenEnv (info : Win32ProcessInfo) : nat :=
  match Env info with
  | None => O
  | Some env => List.length env
  end.

(** The calls into the operating system, each with the type of what it
    gives back: the value returned and the out-parameters.
    [ReadProcessMemory] is one call per destination type (a [uintptr], the
    parameters structure, a buffer of [uint16]); a snapshot is the finite
    list of entries taken when it is created, which [Process32First] and
    [Process32Next] walk; [QueryFullProcessImageNameW] gives back the
    characters it wrote, [buf[:size]]. *)
Inductive syscall : Type -> Type :=
| OpenProcess (access : Z) (inherit : bool) (pid : Z)
    : syscall (Z * option error)
| CloseHandle (handle : Z) : syscall unit
| GetProcessTimes (handle : Z) : syscall (Z * Filetime)
| NtQueryInformationProcess (handle : Z)
    : syscall (Z * processBasicInformation)
| ReadProcessMemory_uintptr (handle addr : Z) : syscall (Z * Z)
| ReadProcessMemory_params (handle addr : Z)
    : syscall (Z * rtlUserProcessParameters)
| ReadProcessMemory_uint16s (handle addr size : Z) : syscall (Z * list Z)
| QueryFullProcessImageNameW (handle : Z) : syscall (Z * list Z)
| CreateToolhelp32Snapshot (flags pid : Z) : syscall (Z * list PROCESSENTRY32).

(** A call together with its answer, as observed in a run. *)
Inductive event : Type :=
| EvOpenProcess (access : Z) (inherit : bool) (pid : Z)
    (handle : Z) (err : option error)
| EvCloseHandle (handle : Z)
| EvGetProcessTimes (handle : Z) (ret : Z) (creation : Filetime)
| EvNtQueryInformationProcess (handle : Z) (status : Z)
    (pbi : processBasicInformation)
| EvReadPointer (handle addr : Z) (ret : Z) (value : Z)
| EvReadParams (handle addr : Z) (ret : Z) (params : rtlUserProcessParameters)
| EvReadUint16s (handle addr size : Z) (ret : Z) (units : list Z)
| EvQueryFullProcessImageNameW (handle : Z) (ret : Z) (units : list Z)
| EvCreateToolhelp32Snapshot (flags pid : Z) (snap : Z)
    (entries : list PROCESSENTRY32).

Definition observed {X : Type} (c : syscall X) : X -> event :=
  match c in syscall X return X -> event with
  | OpenProcess access inherit pid =>
      fun x => EvOpenProcess access inherit pid (fst x) (snd x)
  | CloseHandle handle => fun _ => EvCloseHandle handle
  | GetProcessTimes handle =>
      fun x => EvGetProcessTimes handle (fst x) (snd x)
  | NtQueryInformationProcess handle =>
      fun x => EvNtQueryInformationProcess handle (fst x) (snd x)
  | ReadProcessMemory_uintptr handle addr =>
      fun x => EvReadPointer handle addr (fst x) (snd x)
  | ReadProcessMemory_params handle addr =>
      fun x => EvReadParams handle addr (fst x) (snd x)
  | ReadProcessMemory_uint16s handle addr size =>
      fun x => EvReadUint16s handle addr size (fst x) (snd x)
  | QueryFullProcessImageNameW handle =>
      fun x => EvQueryFullProcessImageNameW handle (fst x) (snd x)
  | CreateToolhelp32Snapshot flags pid =>
      fun x => EvCreateToolhelp32Snapshot flags pid (fst x) (snd x)
  end.

(** Programs over these calls: return, panic, or call and go on with the
    answer. *)
Inductive Prog (A : Type) : Type :=
| Ret (a : A)
| Panic
| Call (X : Type) (c : syscall X) (k : X -> Prog A).
Arguments Panic {A}.
Arguments Call {A X} c k.

Fixpoint bind {A B : Type} (p : Prog A) (f : A -> Prog B) : Prog B :=
  match p with
  | Ret a => f a
  | Panic => Panic
  | Call c k => Call c (fun x => bind (k x) f)
  end.

Definition call {X : Type} (c : syscall X) : Prog X := Call c (fun x => Ret x).

Notation "x <- p ;; q" := (bind p (fun x => q))
  (at level 61, p at next level, right associativity).
Notation "' pat <- p ;; q" := (bind p (fun x => let pat := x in q))
  (at level 61, pat pattern, p at next level, right associativity).

(** [defer cleanup; body]: the deferred call runs when [body] returns and
    when it panics. *)
Fixpoint defer {A : Type} (cleanup : Prog unit) (body : Prog A) : Prog A :=
  match body with
  | Ret a => _ <- cleanup ;; Ret a
  | Panic => _ <- cleanup ;; Panic
  | Call c k => Call c (fun x => defer cleanup (k x))
  end.

(** The runs of a program: the operating system is free to answer each
    call as it likes. *)
Fixpoint runs {A : Type} (p : Prog A) (tr : list event) (out : outcome A)
  : Prop :=
  match p with
  | Ret a => tr = [] /\ out = Returned a
  | Panic => tr = [] /\ out = Panicked
  | Call c k => exists x tr', tr = observed c x :: tr' /\ runs (k x) tr' out
  end.

(** The run against a given operating system, which answers a call
    knowing the events so far. *)
Definition System : Type := list event -> forall X : Type, syscall X -> X.

Fixpoint exec {A : Type} (os : System) (past : list event) (p : Prog A)
  : list event * outcome A :=
  match p with
  | Ret a => ([], Returned a)
  | Panic => ([], Panicked)
  | Call c k =>
      let x := os past _ c in
      let '(tr, out) := exec os (past ++ [observed c x]) (k x) in
      (observed c x :: tr, out)
  end.

Section Win32.
Context {R : Runtime}.

(** [unsafe.Sizeof(uintptr(0))]: 4 or 8.  [uintptr] and [int] have this
    size. *)
Variable ptrSize : Z.

Definition uintptr (z : Z) : Z := z mod 2 ^ (8 * ptrSize).

Definition int (z : Z) : Z :=
  (z + 2 ^ (8 * ptrSize - 1)) mod 2 ^ (8 * ptrSize) - 2 ^ (8 * ptrSize - 1).

Definition uint32 (z : Z) : Z := z mod 2 ^ 32.

(** [syscall.InvalidHandle], [^Handle(0)]. *)
Definition InvalidHandle : Z := 2 ^ (8 * ptrSize) - 1.

Definition getProcessStartTime (handle : Z) : Prog Time :=
  '(ret, creation) <- call (GetProcessTimes handle) ;;
  if ret =? 0 then Ret zeroTime
  else Ret (time_Unix 0 (Nanoseconds creation)).

(** [readUnicodeString]: [&buf[0]] panics when [us.Length/2] is 0, i.e.
    for a length of 1. *)
Definition readUnicodeString (handle : Z) (us : unicodeString) : Prog string :=
  if Length us =? 0 then Ret ""
  else if Length us / 2 =? 0 then Panic
  else
    '(ret, buf) <- call (ReadProcessMemory_uint16s handle (Buffer us) (Length us)) ;;
    if ret =? 0 then Ret ""
    else Ret (syscall_UTF16ToString buf).

Definition getProcessImageName (handle : Z) : Prog string :=
  '(ret, written) <- call (QueryFullProcessImageNameW handle) ;;
  if ret =? 0 then Ret ""
  else Ret (syscall_UTF16ToString written).

Definition getFullProcessInfo (handle pid : Z) (info : Win32ProcessInfo)
  : Prog (Win32ProcessInfo * option error) :=
  startedAt <- getProcessStartTime handle ;;
  let info :=
    {| PPID := PPID info; CommandLine := CommandLine info; Exe := Exe info;
       Cwd := Cwd info; Env := Env info; StartedAt := startedAt |} in
  '(status, pbi) <- call (NtQueryInformationProcess handle) ;;
  if negb (status =? 0) then
    Ret (info,
         Some (Errorf "NtQueryInformationProcess failed with status %x"
                      (ArgInt status)))
  else
    let info :=
      {| PPID := int (InheritedFromUniqueProcessId pbi);
         CommandLine := CommandLine info; Exe := Exe info;
         Cwd := Cwd info; Env := Env info; StartedAt := StartedAt info |} in
    if PebBaseAddress pbi =? 0 then
      Ret (info, Some (Errorf "PEB Base Address is 0" ArgNone))
    else
      let paramsOffset := if ptrSize =? 4 then 0x10 else 0x20 in
      '(ret, pebPtr) <-
        call (ReadProcessMemory_uintptr handle
                (uintptr (PebBaseAddress pbi + paramsOffset))) ;;
      if ret =? 0 then
        Ret (info,
             Some (Errorf "failed to read PEB ProcessParameters address"
                          ArgNone))
      else
        '(ret, params) <- call (ReadProcessMemory_params handle pebPtr) ;;
        if ret =? 0 then
          Ret (info,
               Some (Errorf "failed to read ProcessParameters struct" ArgNone))
        else
          cwd <- readUnicodeString handle (CurrentDirectoryPath params) ;;
          commandLine <- readUnicodeString handle (params_CommandLine params) ;;
          exe <- readUnicodeString handle (ImagePathName params) ;;
          Ret ({| PPID := PPID info; CommandLine := commandLine; Exe := exe;
                  Cwd := cwd; Env := Some []; StartedAt := StartedAt info |},
               None).

(** The entry [Process32First]/[Process32Next] stop at. *)
Definition findEntry (pid : Z) (entries : list PROCESSENTRY32)
  : option PROCESSENTRY32 :=
  find (fun pe32 => int (ProcessID pe32) =? pid) entries.

Definition getInfoFromSnapshot (pid : Z) : Prog (Z * string * option error) :=
  '(snap, entries) <- call (CreateToolhelp32Snapshot TH32CS_SNAPPROCESS 0) ;;
  if snap =? InvalidHandle then
    Ret (0, "", Some (Errorf "failed to create snapshot" ArgNone))
  else
    defer (call (CloseHandle snap))
      match entries with
      | [] => Ret (0, "", Some (Errorf "failed to get first process" ArgNone))
      | _ =>
          match findEntry pid entries with
          | Some pe32 =>
              let exe := syscall_UTF16ToString (ExeFile pe32) in
              Ret (int (ParentProcessID pe32), exe, None)
          | None =>
              Ret (0, "",
                   Some (Errorf "process %d not found in snapshot"
                                (ArgInt pid)))
          end
      end.

(** [GetProcessDetailedInfo] from its second step on (the limited-access
    open and what follows it), with [info] as the first step left it. *)
Definition limitedOrSnapshot (pid : Z) (info : Win32ProcessInfo)
  : Prog (Win32ProcessInfo * option error) :=
  '(handleLimited, err) <-
    call (OpenProcess PROCESS_QUERY_LIMITED_INFORMATION false (uint32 pid)) ;;
  match err with
  | Some err =>
      '(ppid, exe, snapErr) <- getInfoFromSnapshot pid ;;
      match snapErr with
      | None =>
          Ret ({| PPID := ppid; CommandLine := exe; Exe := exe;
                  Cwd := Cwd info; Env := Env info;
                  StartedAt := StartedAt info |}, None)
      | Some _ => Ret (info, Some err)
      end
  | None =>
      defer (call (CloseHandle handleLimited))
        (startedAt <- getProcessStartTime handleLimited ;;
         exePath <- getProcessImageName handleLimited ;;
         let commandLine :=
           if negb (String.eqb exePath "") then filepath_Base exePath
           else CommandLine info in
         '(ppid, _, _) <- getInfoFromSnapshot pid ;;
         Ret ({| PPID := ppid; CommandLine := commandLine; Exe := exePath;
                 Cwd := ""; Env := Some []; StartedAt := startedAt |}, None))
  end.

Definition GetProcessDetailedInfo (pid : Z)
  : Prog (Win32ProcessInfo * option error) :=
  let info := zeroWin32ProcessInfo in
  '(handle, err) <-
    call (OpenProcess (Z.lor PROCESS_QUERY_INFORMATION PROCESS_VM_READ)
            false (uint32 pid)) ;;
  match err with
  | None =>
      defer (call (CloseHandle handle))
        ('(info, err) <- getFullProcessInfo handle pid info ;;
         match err with
         | None => Ret (info, None)
         | Some _ => limitedOrSnapshot pid info
         end)
  | Some _ => limitedOrSnapshot pid info
  end.

End Win32.

(** ** What the properties are stated with *)

(** *** Git context *)

Section GitWalk.
Context {R : Runtime}.
Variable fs : FileSystem.

(** The directory [i] levels above [dir]. *)
Definition ancestor (i : nat) (dir : string) : string :=
  Nat.iter i filepath_Dir dir.

(** [dir] holds a [.git] directory. *)
Definition hasGitDir (dir : string) : bool :=
  match os_Stat fs (filepath_Join dir ".git") with
  | Some true => true
  | _ => false
  end.

(** The [HEAD] file of [dir]'s [.git] does not give a branch: it cannot be
    read, or what it holds lacks the [ref: ] prefix. *)
Definition headWithoutRef (dir : string) : Prop :=
  match os_ReadFile fs (filepath_Join (filepath_Join dir ".git") "HEAD") with
  | None => True
  | Some head => strings_HasPrefix (strings_TrimSpace head) "ref: " = false
  end.

End GitWalk.

(** A repository at [C:\src\witr] whose [HEAD] file holds [head]. *)
Definition witrCheckout (head : string) : FileSystem := {|
  os_Stat := fun p => if String.eqb p "C:\src\witr\.git" then Some true else None;
  os_ReadFile := fun p =>
    if String.eqb p "C:\src\witr\.git\HEAD" then Some head else None
|}.

(** *** Descriptor listing *)

Section LsofListing.
Context {R : Runtime}.

(** The lines of the listing that are not blank, trimmed; the first of
    them is the header, the others are the entries. *)
Definition nonBlank (lines : list string) : list string :=
  filter (fun trimmed => negb (String.eqb trimmed ""))
         (map strings_TrimSpace lines).

Definition lsofEntries (out : string) : list string :=
  tl (nonBlank (strings_Lines out)).

Definition nineFields (line : string) : bool :=
  (9 <=? List.length (strings_Fields line))%nat.


(** The same with the type in a column of four characters. *)
Definition lsofSummary (line : string) : string :=
  let fields := strings_Fields line in
  nth 3 fields "" ++ " " ++ fmt_padRight 4 (nth 4 fields "") ++ " "
  ++ strings_Join (skipn 8 fields) " ".

End LsofListing.

(** A host on which [ps] prints [psOut], [lsof] prints [lsofOut], and the
    other tools fail. *)
Definition toolsPrinting (psOut lsofOut : string) : Host := {|
  exec_Output := fun name _ =>
    if String.eqb name "ps" then (psOut, None)
    else if String.eqb name "lsof" then (lsofOut, None)
    else ("", Some (ErrHost "exit status 1"));
  exec_CombinedOutput := fun _ _ => ("", Some (ErrHost "exit status 1"))
|}.

Definition lsofHeader : string :=
  "COMMAND PID USER FD TYPE DEVICE SIZE/OFF NODE NAME".

Definition lsofCwdLine : string :=
  "bash 12 me cwd DIR 1,4 640 2 /Users/me/My Documents".

Definition lsofListing : string :=
  lsofHeader ++ String newline (lsofCwdLine ++ String newline "").

(** *** Tiers *)

Inductive tier : Type := FullAccess | LimitedAccess | SnapshotOnly.

(** The states of the tiered acquisition (spec 4.1): a tier in progress
    that the run ends in has succeeded; [TierFailed SnapshotOnly] is
    "exhausted". *)
Inductive tierState : Type :=
| NotAttempted
| TierInProgress (k : tier)
| TierSucceeded (k : tier)
| TierFailed (k : tier).

Section TierObserver.
Context {R : Runtime}.
Variable ptrSize : Z.
Variable pid : Z.

Definition fullAccessMask : Z :=
  Z.lor PROCESS_QUERY_INFORMATION PROCESS_VM_READ.

Definition isSome {A : Type} (o : option A) : bool :=
  match o with
  | Some _ => true
  | None => false
  end.

(** The snapshot has an entry for [pid]. *)
Definition snapshotFinds (snap : Z) (entries : list PROCESSENTRY32) : bool :=
  negb (snap =? InvalidHandle ptrSize) && isSome (findEntry ptrSize pid entries).

(** How an observed call moves the acquisition from one state to the next;
    [None] when the call has no place in that state.
    - The first call opens the process with full access.
    - During the full-access tier only its own queries and reads occur; a
      failed query, a zero control-block address or a failed read of the
      control block or of the parameters fails the tier, a string that
      cannot be read does not.
    - The limited-access open occurs in no state but the failure of the
      full-access tier.
    - During the limited-access tier only its own queries and its
      parent-PID lookup in the snapshot occur.
    - The snapshot-only lookup occurs in no state but the failure of the
      limited-access open.
    - Handles are released in states a run may end in. *)
Definition tierStep (st : tierState) (ev : event) : option tierState :=
  match st, ev with
  | NotAttempted, EvOpenProcess access _ _ _ err =>
      if access =? fullAccessMask then
        Some (if isSome err then TierFailed FullAccess
              else TierInProgress FullAccess)
      else None
  | TierInProgress FullAccess, EvGetProcessTimes _ _ _ => Some st
  | TierInProgress FullAccess, EvNtQueryInformationProcess _ status pbi =>
      if negb (status =? 0) || (PebBaseAddress pbi =? 0)
      then Some (TierFailed FullAccess) else Some st
  | TierInProgress FullAccess, EvReadPointer _ _ ret _ =>
      if ret =? 0 then Some (TierFailed FullAccess) else Some st
  | TierInProgress FullAccess, EvReadParams _ _ ret _ =>
      if ret =? 0 then Some (TierFailed FullAccess) else Some st
  | TierInProgress FullAccess, EvReadUint16s _ _ _ _ _ => Some st
  | TierInProgress FullAccess, EvCloseHandle _ => Some st
  | TierFailed FullAccess, EvOpenProcess access _ _ _ err =>
      if access =? PROCESS_QUERY_LIMITED_INFORMATION then
        Some (if isSome err then TierFailed LimitedAccess
              else TierInProgress LimitedAccess)
      else None
  | TierInProgress LimitedAccess, EvGetProcessTimes _ _ _ => Some st
  | TierInProgress LimitedAccess, EvQueryFullProcessImageNameW _ _ _ => Some st
  | TierInProgress LimitedAccess, EvCreateToolhelp32Snapshot _ _ _ _ => Some st
  | TierInProgress LimitedAccess, EvCloseHandle _ => Some st
  | TierFailed LimitedAccess, EvCreateToolhelp32Snapshot _ _ snap entries =>
      Some (if snapshotFinds snap entries then TierSucceeded SnapshotOnly
            else TierFailed SnapshotOnly)
  | TierSucceeded SnapshotOnly, EvCloseHandle _ => Some st
  | TierFailed SnapshotOnly, EvCloseHandle _ => Some st
  | _, _ => None
  end.

Fixpoint tierRun (st : tierState) (tr : list event) : option tierState :=
  match tr with
  | [] => Some st
  | ev :: tr' =>
      match tierStep st ev with
      | Some st' => tierRun st' tr'
      | None => None
      end
  end.

(** What the caller gets in the state the run ends in. *)
Definition resolves (final : tierState)
  (out : outcome (Win32ProcessInfo * option error)) : Prop :=
  match final with
  | TierInProgress FullAccess =>
      out = Panicked \/ exists info, out = Returned (info, None)
  | TierInProgress LimitedAccess => exists info, out = Returned (info, None)
  | TierSucceeded SnapshotOnly => exists info, out = Returned (info, None)
  | TierFailed SnapshotOnly => exists info e, out = Returned (info, Some e)
  | _ => False
  end.

End TierObserver.

(** Observations of a run. *)
Definition openGranted (ev : event) : bool :=
  match ev with
  | EvOpenProcess _ _ _ _ None => true
  | _ => false
  end.

Definition limitedOpenDenied (ev : event) : bool :=
  match ev with
  | EvOpenProcess access _ _ _ (Some _) =>
      access =? PROCESS_QUERY_LIMITED_INFORMATION
  | _ => false
  end.

(** A string of the parameters whose length makes [readUnicodeString]
    panic. *)
Definition lengthOne (us : unicodeString) : bool :=
  negb (Length us =? 0) && (Length us / 2 =? 0).

Definition readsLengthOne (ev : event) : bool :=
  match ev with
  | EvReadParams _ _ _ params =>
      lengthOne (CurrentDirectoryPath params)
      || lengthOne (params_CommandLine params)
      || lengthOne (ImagePathName params)
  | _ => false
  end.

Definition limitedOpen (ev : event) : bool :=
  match ev with
  | EvOpenProcess access _ _ _ _ =>
      access =? PROCESS_QUERY_LIMITED_INFORMATION
  | _ => false
  end.

Definition snapshotCall (ev : event) : bool :=
  match ev with
  | EvCreateToolhelp32Snapshot _ _ _ _ => true
  | _ => false
  end.

(** A read of one of the strings of the parameters. *)
Definition stringRead (ev : event) : bool :=
  match ev with
  | EvReadUint16s _ _ _ _ _ => true
  | _ => false
  end.

(** A system that denies every open and whose snapshot lists PID 42 as
    [a.exe], child of PID 4. *)
Definition snapshotEntry (pid ppid : Z) (exeFile : list Z) : PROCESSENTRY32 := {|
  Size := 568; CntUsage := 0; ProcessID := pid; DefaultHeapID := 0;
  ModuleID := 0; CntThreads := 1; ParentProcessID := ppid;
  PriClassBase := 8; Flags := 0; ExeFile := exeFile
|}.

Definition noString : unicodeString :=
  {| Length := 0; MaximumLength := 0; Buffer := 0 |}.

Definition accessDenied : System := fun _ X c =>
  match c in syscall X return X with
  | OpenProcess _ _ _ => (0, Some (ErrHost "Access is denied."))
  | CloseHandle _ => tt
  | GetProcessTimes _ => (0, {| LowDateTime := 0; HighDateTime := 0 |})
  | NtQueryInformationProcess _ =>
      (1, {| ExitStatus := 0; PebBaseAddress := 0; AffinityMask := 0;
             BasePriority := 0; UniqueProcessId := 0;
             InheritedFromUniqueProcessId := 0 |})
  | ReadProcessMemory_uintptr _ _ => (0, 0)
  | ReadProcessMemory_params _ _ =>
      (0, {| Reserved1 := []; Reserved2 := [];
             CurrentDirectoryPath := noString; CurrentDirectoryHandle := 0;
             DllPath := noString; ImagePathName := noString;
             params_CommandLine := noString; Environment := 0 |})
  | ReadProcessMemory_uint16s _ _ _ => (0, [])
  | QueryFullProcessImageNameW _ => (0, [])
  | CreateToolhelp32Snapshot _ _ =>
      (100, [snapshotEntry 4 0 [83; 121; 115; 116; 101; 109; 0];
             snapshotEntry 42 4 [97; 46; 101; 120; 101; 0]])
  end.

(** A system that grants every open, reports a zero control-block
    address, and whose snapshot lists PID 42 as child of PID 4. *)
Definition controlBlockZero : System := fun _ X c =>
  match c in syscall X return X with
  | OpenProcess access _ _ =>
      (if access =? PROCESS_QUERY_LIMITED_INFORMATION then 12 else 11, None)
  | CloseHandle _ => tt
  | GetProcessTimes _ => (1, {| LowDateTime := 0; HighDateTime := 30000000 |})
  | NtQueryInformationProcess _ =>
      (0, {| ExitStatus := 0; PebBaseAddress := 0; AffinityMask := 0;
             BasePriority := 0; UniqueProcessId := 42;
             InheritedFromUniqueProcessId := 4 |})
  | ReadProcessMemory_uintptr _ _ => (0, 0)
  | ReadProcessMemory_params _ _ =>
      (0, {| Reserved1 := []; Reserved2 := [];
             CurrentDirectoryPath := noString; CurrentDirectoryHandle := 0;
             DllPath := noString; ImagePathName := noString;
             params_CommandLine := noString; Environment := 0 |})
  | ReadProcessMemory_uint16s _ _ _ => (0, [])
  | QueryFullProcessImageNameW _ =>
      (1, [67; 58; 92; 97; 46; 101; 120; 101])
  | CreateToolhelp32Snapshot _ _ =>
      (100, [snapshotEntry 4 0 [83; 121; 115; 116; 101; 109; 0];
             snapshotEntry 42 4 [97; 46; 101; 120; 101; 0]])
  end.

(** ** [ReadProcess] (Windows build) *)

(** [model.Process], with the fields [ReadProcess] fills; the types of the
    listening ports and bind addresses are those [GetListeningPortsForPID]
    returns, which is not among the sources.  [model.Result] as the output
    package reads it; [Warnings] and [Env] are [None] when nil. *)
Module model.

Record Process (Ports Addrs : Type) : Type := {
  PID : Z;
  PPID : Z;
  Command : string;
  Cmdline : string;
  Exe : string;
  StartedAt : Time;
  User : string;
  WorkingDir : string;
  GitRepo : string;
  GitBranch : string;
  ListeningPorts : Ports;
  BindAddresses : Addrs;
  Health : string;
  Forked : string;
  Env : option (list string);
  Service : string;
  Container : string;
  ExeDeleted : bool
}.

Record Result (Ports Addrs : Type) : Type := {
  Result_Process : Process Ports Addrs;
  Ancestry : list (Process Ports Addrs);
  Children : list (Process Ports Addrs);
  Warnings : option (list string)
}.

End model.

Section ReadProcess.
Context {R : Runtime}.
Variable ptrSize : Z.
Variables Ports Addrs : Type.

(** The zero values of the two types, and the functions of the package
    that are not among the sources. *)
Variable noPorts : Ports.
Variable noAddrs : Addrs.
Variable GetListeningPortsForPID : Z -> Ports * Addrs.
Variable readUser : Z -> string.
Variable findLongHexID : string -> string.
Variable resolveContainerName : string -> string -> string.

(** The host: its tools, its files, and [os.Stat]'s error with
    [os.IsNotExist]'s verdict on it. *)
Variable host : Host.
Variable fs : FileSystem.
Variable os_StatError : string -> option error.
Variable os_IsNotExist : error -> bool.

Definition zeroProcess : model.Process Ports Addrs := {|
  model.PID := 0; model.PPID := 0; model.Command := ""; model.Cmdline := "";
  model.Exe := ""; model.StartedAt := zeroTime; model.User := "";
  model.WorkingDir := ""; model.GitRepo := ""; model.GitBranch := "";
  model.ListeningPorts := noPorts; model.BindAddresses := noAddrs;
  model.Health := ""; model.Forked := ""; model.Env := None;
  model.Service := ""; model.Container := ""; model.ExeDeleted := false
|}.

Definition isWindowsBinaryDeleted (path : string) : bool :=
  if String.eqb path "" then false
  else match os_StatError path with
       | Some err => os_IsNotExist err
       | None => false
       end.

Definition doubleQuote : string := String (ascii_of_nat 34) "".

Definition detectWindowsServiceSource (pid : Z) : string :=
  let psScript :=
    "Get-CimInstance -ClassName Win32_Service -Filter "
    ++ doubleQuote ++ "ProcessId=" ++ strconv_Itoa pid ++ doubleQuote
    ++ " | Select-Object -ExpandProperty Name" in
  match exec_Output host "powershell"
          ["-NoProfile"; "-NonInteractive"; psScript] with
  | (out, None) => strings_TrimSpace out
  | (_, Some _) => ""
  end.

Definition ReadProcess (pid : Z)
  : Prog (model.Process Ports Addrs * option error) :=
  '(info, err) <- GetProcessDetailedInfo ptrSize pid ;;
  match err with
  | Some err => Ret (zeroProcess, Some err)
  | None =>
      let name :=
        if negb (String.eqb (Exe info) "") then filepath_Base (Exe info)
        else "" in
      let '(ports, addrs) := GetListeningPortsForPID pid in
      let serviceName := detectWindowsServiceSource pid in
      match detectContainer findLongHexID resolveContainerName
              (CommandLine info) with
      | Panicked => Panic
      | Returned container =>
          let '(gitRepo, gitBranch) := detectGitInfo fs (Cwd info) in
          Ret ({| model.PID := pid;
                  model.PPID := PPID info;
                  model.Command := name;
                  model.Cmdline := CommandLine info;
                  model.Exe := Exe info;
                  model.StartedAt := StartedAt info;
                  model.User := readUser pid;
                  model.WorkingDir := Cwd info;
                  model.GitRepo := gitRepo;
                  model.GitBranch := gitBranch;
                  model.ListeningPorts := ports;
                  model.BindAddresses := addrs;
                  model.Health := "healthy";
                  model.Forked := "unknown";
                  model.Env := Env info;
                  model.Service := serviceName;
                  model.Container := container;
                  model.ExeDeleted := isWindowsBinaryDeleted (Exe info) |},
               None)
      end
  end.

End ReadProcess.

(** ** The output package *)

Record shortProcess : Type := {
  short_PID : Z;
  short_Command : string
}.

(** [Children] is [None] when it is nil, which [omitempty] leaves out. *)
Record treeResult : Type := {
  tree_Ancestry : list shortProcess;
  tree_Children : option (list shortProcess)
}.

Record warningResult : Type := {
  warning_PID : Z;
  warning_Process : string;
  warning_Command : string;
  warning_Warnings : option (list string)
}.

Record envResult : Type := {
  env_PID : Z;
  env_Process : string;
  env_Command : string;
  env_Env : option (list string)
}.

Section Output.
Variables Ports Addrs : Type.

(** [json.MarshalIndent(v, "", "  ")] at each of the types it is called
    on: the bytes and the error. *)
Variable MarshalIndent_Result : model.Result Ports Addrs -> string * option error.
Variable MarshalIndent_ancestry : list shortProcess -> string * option error.
Variable MarshalIndent_tree : treeResult -> string * option error.
Variable MarshalIndent_warnings : warningResult -> string * option error.
Variable MarshalIndent_env : envResult -> string * option error.

(** [if err != nil { return "", err }; return string(data), nil]. *)
Definition marshalled (res : string * option error) : string * option error :=
  match res with
  | (_, Some err) => ("", Some err)
  | (data, None) => (data, None)
  end.

Definition short (p : model.Process Ports Addrs) : shortProcess :=
  {| short_PID := model.PID p; short_Command := model.Command p |}.

Definition ToJSON (r : model.Result Ports Addrs) : string * option error :=
  marshalled (MarshalIndent_Result r).

(** What [ToShortJSON] marshals. *)
Definition shortAncestry (r : model.Result Ports Addrs) : list shortProcess :=
  map short (model.Ancestry r).

Definition ToShortJSON (r : model.Result Ports Addrs) : string * option error :=
  marshalled (MarshalIndent_ancestry (shortAncestry r)).

(** What [ToTreeJSON] marshals. *)
Definition treeOf (r : model.Result Ports Addrs) : treeResult :=
  {| tree_Ancestry := map short (model.Ancestry r);
     tree_Children :=
       if (0 <? List.length (model.Children r))%nat
       then Some (map short (model.Children r))
       else None |}.

Definition ToTreeJSON (r : model.Result Ports Addrs) : string * option error :=
  marshalled (MarshalIndent_tree (treeOf r)).

(** The process name of [ToWarningsJSON] and of [ToEnvJSON]. *)
Definition procNameOrUnknown (r : model.Result Ports Addrs) : string :=
  if (0 <? List.length (model.Ancestry r))%nat then
    model.Command
      (nth (List.length (model.Ancestry r) - 1) (model.Ancestry r)
           (model.Result_Process r))
  else if negb (String.eqb (model.Command (model.Result_Process r)) "") then
    model.Command (model.Result_Process r)
  else "unknown".

(** What [ToWarningsJSON] marshals. *)
Definition warningsOf (r : model.Result Ports Addrs) : warningResult :=
  let procName := procNameOrUnknown r in
  let cmdLine :=
    if String.eqb (model.Cmdline (model.Result_Process r)) ""
    then model.Command (model.Result_Process r)
    else model.Cmdline (model.Result_Process r) in
  let warnings :=
    match model.Warnings r with
    | None => Some []
    | Some ws => Some ws
    end in
  {| warning_PID := model.PID (model.Result_Process r);
     warning_Process := procName;
     warning_Command := cmdLine;
     warning_Warnings := warnings |}.

Definition ToWarningsJSON (r : model.Result Ports Addrs) : string * option error :=
  marshalled (MarshalIndent_warnings (warningsOf r)).

(** What [ToEnvJSON] marshals. *)
Definition envOf (r : model.Result Ports Addrs) : envResult :=
  {| env_PID := model.PID (model.Result_Process r);
     env_Process := procNameOrUnknown r;
     env_Command := model.Cmdline (model.Result_Process r);
     env_Env := model.Env (model.Result_Process r) |}.

Definition ToEnvJSON (r : model.Result Ports Addrs) : string * option error :=
  marshalled (MarshalIndent_env (envOf r)).

(** [RenderEnvOnly]: the colour codes are constants of the package that
    are not among the sources; the result is the texts handed to the
    printer's [Printf], in order. *)
Variable ColorReset : string.
Variable ColorBlue : string.
Variable ColorRed : string.
Variable ColorGreen : string.
Variable ColorBold : string.

Definition lineFeed : string := String newline "".

(** The process name [RenderEnvOnly] prints. *)
Definition procNameOfRender (r : model.Result Ports Addrs) : string :=
  if (0 <? List.length (model.Ancestry r))%nat then
    model.Command
      (nth (List.length (model.Ancestry r) - 1) (model.Ancestry r)
           (model.Result_Process r))
  else model.Command (model.Result_Process r).

Definition RenderEnvOnly (r : model.Result Ports Addrs) (colorEnabled : bool)
  : list string :=
  let colorResetEnv := if colorEnabled then ColorReset else "" in
  let colorBlueEnv := if colorEnabled then ColorBlue else "" in
  let colorRedEnv := if colorEnabled then ColorRed else "" in
  let colorGreenEnv := if colorEnabled then ColorGreen else "" in
  let colorBoldEnv := if colorEnabled then ColorBold else "" in
  let procName := procNameOfRender r in
  let pidText := strconv_Itoa (model.PID (model.Result_Process r)) in
  let processLine :=
    if colorEnabled then
      colorBlueEnv ++ "Process" ++ colorResetEnv ++ "     : " ++ colorGreenEnv
      ++ procName ++ colorResetEnv ++ " (" ++ colorBoldEnv ++ "pid " ++ pidText
      ++ colorResetEnv ++ ")" ++ lineFeed
    else "Process     : " ++ procName ++ " (pid " ++ pidText ++ ")" ++ lineFeed in
  let commandLine :=
    colorGreenEnv ++ "Command" ++ colorResetEnv ++ "     : "
    ++ model.Cmdline (model.Result_Process r) ++ lineFeed in
  let env :=
    match model.Env (model.Result_Process r) with
    | Some env => env
    | None => []
    end in
  let environment :=
    if (0 <? List.length env)%nat then
      (colorBlueEnv ++ "Environment" ++ colorResetEnv ++ " :" ++ lineFeed)
      :: map (fun e => "  " ++ e ++ lineFeed) env
    else
      [colorBlueEnv ++ "Environment" ++ colorResetEnv ++ " : " ++ colorRedEnv
       ++ "No environment variables found." ++ colorResetEnv ++ lineFeed] in
  processLine :: commandLine :: environment.

End Output.

(** ** More observations of a run *)

Definition limitedOpenGranted (ev : event) : bool :=
  match ev with
  | EvOpenProcess access _ _ _ None =>
      access =? PROCESS_QUERY_LIMITED_INFORMATION
  | _ => false
  end.

Section HandleObserver.
Variable ptrSize : Z.
Variable pid : Z.

(** The handle a call works on. *)
Definition handleUsed (ev : event) : option Z :=
  match ev with
  | EvGetProcessTimes handle _ _ => Some handle
  | EvNtQueryInformationProcess handle _ _ => Some handle
  | EvReadPointer handle _ _ _ => Some handle
  | EvReadParams handle _ _ _ => Some handle
  | EvReadUint16s handle _ _ _ _ => Some handle
  | EvQueryFullProcessImageNameW handle _ _ => Some handle
  | _ => None
  end.

Fixpoint holds (handle : Z) (held : list Z) : bool :=
  match held with
  | [] => false
  | h :: held' => (h =? handle) || holds handle held'
  end.

(** The handles held after a call, most recent first: a granted open and
    a valid snapshot add their handle, [CloseHandle] removes the most
    recent one, which has to be its argument, and any other call has to
    work on a handle that is held.  [None] when the call breaks this. *)
Definition heldAfter (held : list Z) (ev : event) : option (list Z) :=
  match ev with
  | EvOpenProcess _ _ _ handle None => Some (handle :: held)
  | EvOpenProcess _ _ _ _ (Some _) => Some held
  | EvCreateToolhelp32Snapshot _ _ snap _ =>
      if snap =? InvalidHandle ptrSize then Some held else Some (snap :: held)
  | EvCloseHandle handle =>
      match held with
      | top :: held' => if top =? handle then Some held' else None
      | [] => None
      end
  | _ =>
      match handleUsed ev with
      | Some handle => if holds handle held then Some held else None
      | None => Some held
      end
  end.

Fixpoint heldAfterAll (held : list Z) (tr : list event) : option (list Z) :=
  match tr with
  | [] => Some held
  | ev :: tr' =>
      match heldAfter held ev with
      | Some held' => heldAfterAll held' tr'
      | None => None
      end
  end.

(** An open asks for the process [uint32(pid)], without handle
    inheritance, with the query-and-read rights or the limited query
    right, and nothing else. *)
Definition opensToQuery (ev : event) : bool :=
  match ev with
  | EvOpenProcess access inherit p _ _ =>
      (p =? uint32 pid) && negb inherit
      && ((access =? fullAccessMask)
          || (access =? PROCESS_QUERY_LIMITED_INFORMATION))
  | _ => true
  end.

Definition isOpen (ev : event) : bool :=
  match ev with
  | EvOpenProcess _ _ _ _ _ => true
  | _ => false
  end.

(** A snapshot that is invalid or has no entry for [pid]. *)
Definition snapshotMisses (ev : event) : bool :=
  match ev with
  | EvCreateToolhelp32Snapshot _ _ snap entries =>
      negb (snapshotFinds ptrSize pid snap entries)
  | _ => false
  end.

End HandleObserver.

(** ** More of what the properties are stated with *)

(** [c] occurs in [s]. *)
Fixpoint hasByte (c : ascii) (s : string) : bool :=
  match s with
  | EmptyString => false
  | String c' s' => Ascii.eqb c' c || hasByte c s'
  end.

(** The result of [ReadExtendedInfo]'s eight that is the error. *)
Definition errorOfExtendedInfo
  (res : MemoryInfo * IOStats * list string * Z * Z * list Z * Z * option error)
  : option error := snd res.

Definition memoryOfExtendedInfo
  (res : MemoryInfo * IOStats * list string * Z * Z * list Z * Z * option error)
  : MemoryInfo :=
  let '(memInfo, _, _, _, _, _, _, _) := res in memInfo.

(** [ps] gave at least three fields. *)
Definition psUsable {R : Runtime} (host : Host) (pid : Z) : bool :=
  match exec_Output host "ps"
          ["-p"; strconv_Itoa pid; "-o"; "rss=,vsz=,thcount="] with
  | (out, None) =>
      (3 <=? List.length (strings_Fields (strings_TrimSpace out)))%nat
  | (_, Some _) => false
  end.

Definition lsofUsable (host : Host) (pid : Z) : bool :=
  match exec_Output host "lsof" ["-nP"; "-p"; strconv_Itoa pid] with
  | (_, None) => true
  | (_, Some _) => false
  end.

(** A call that works on [handle]. *)
Definition usesHandle (handle : Z) (ev : event) : bool :=
  match handleUsed ev with
  | Some h => h =? handle
  | None => false
  end.

(** Every event of every run of [p] passes [q]; every value [p] returns
    satisfies [P]. *)
Definition traceAll {A : Type} (q : event -> bool) (p : Prog A) : Prop :=
  forall (tr : list event) (out : outcome A),
    runs p tr out -> forallb q tr = true.

Definition resultAll {A : Type} (P : A -> Prop) (p : Prog A) : Prop :=
  forall (tr : list event) (a : A), runs p tr (Returned a) -> P a.

(** The children a line of [pgrep] gives. *)
Definition childOn {R : Runtime} (line : string) : list Z :=
  match strconv_Atoi (strings_TrimSpace line) with
  | Some pidVal => [pidVal]
  | None => []
  end.

(** A host whose [launchctl] reports no ceiling and whose shell reports
    256. *)
Definition launchctlUnlimited : Host := {|
  exec_Output := fun name _ =>
    if String.eqb name "launchctl"
    then ("maxfiles    unlimited      unlimited", None)
    else ("256", None);
  exec_CombinedOutput := fun _ _ => ("", Some (ErrHost "exit status 1"))
|}.

(** A call whose answer fails the full-access tier: the full-access open
    denied, the query failed or giving a zero control-block address, the
    control block or the parameters unreadable.  A parameters string that
    cannot be read is none. *)
Definition fullTierFailure (ev : event) : bool :=
  match ev with
  | EvOpenProcess access _ _ _ (Some _) => access =? fullAccessMask
  | EvNtQueryInformationProcess _ status pbi =>
      negb (status =? 0) || (PebBaseAddress pbi =? 0)
  | EvReadPointer _ _ ret _ => ret =? 0
  | EvReadParams _ _ ret _ => ret =? 0
  | _ => false
  end.

(** A system that grants the full-access open and lets the control block
    and the parameters be read, but none of the three strings. *)
Definition stringsUnreadable : System := fun _ X c =>
  match c in syscall X return X with
  | OpenProcess _ _ _ => (11, None)
  | CloseHandle _ => tt
  | GetProcessTimes _ => (0, {| LowDateTime := 0; HighDateTime := 0 |})
  | NtQueryInformationProcess _ =>
      (0, {| ExitStatus := 0; PebBaseAddress := 4096; AffinityMask := 0;
             BasePriority := 0; UniqueProcessId := 42;
             InheritedFromUniqueProcessId := 4 |})
  | ReadProcessMemory_uintptr _ _ => (1, 8192)
  | ReadProcessMemory_params _ _ =>
      (1, {| Reserved1 := []; Reserved2 := [];
             CurrentDirectoryPath :=
               {| Length := 6; MaximumLength := 8; Buffer := 12288 |};
             CurrentDirectoryHandle := 0;
             DllPath := noString;
             ImagePathName :=
               {| Length := 10; MaximumLength := 12; Buffer := 12544 |};
             params_CommandLine :=
               {| Length := 10; MaximumLength := 12; Buffer := 12800 |};
             Environment := 0 |})
  | ReadProcessMemory_uint16s _ _ _ => (0, [])
  | QueryFullProcessImageNameW _ => (0, [])
  | CreateToolhelp32Snapshot _ _ => (100, [])
  end.

(** * Properties *)

Unset Implicit Arguments.

(** ** Container detection *)

(** C4: the command line [/usr/bin/dockerd --name mycontainer] is
    classified as exactly [docker: mycontainer]. *)
Theorem detectContainer_dockerd_name :
  forall (findLongHexID : string -> string)
         (resolveContainerName : string -> string -> string),
    detectContainer (R := AsciiRuntime) findLongHexID resolveContainerName
      "/usr/bin/dockerd --name mycontainer"
    = Returned "docker: mycontainer".
Proof.
  intros findLongHexID resolveContainerName.
  vm_compute. reflexivity.
Qed.




(** ** Descriptor sampling *)

Section LsofFacts.
Context {R : Runtime}.

Lemma append_String_nonempty :
  forall (a : string) (c : ascii) (b : string),
    String.eqb (a ++ String c b) "" = false.
Proof.
  intros a c b. destruct a; reflexivity.
Qed.

Lemma summarize_nineFields :
  forall line : string,
    nineFields line = true -> summarizeLsofLine line = lsofSummary line.
Proof.
  intros line H. unfold summarizeLsofLine, lsofSummary, nineFields in *.
  apply Nat.leb_le in H.
  destruct (Nat.ltb_spec (List.length (strings_Fields line)) 9); [lia | reflexivity].
Qed.

Lemma summarize_short :
  forall line : string,
    nineFields line = false -> summarizeLsofLine line = "".
Proof.
  intros line H. unfold summarizeLsofLine, nineFields in *.
  apply Nat.leb_gt in H.
  destruct (Nat.ltb_spec (List.length (strings_Fields line)) 9); [reflexivity | lia].
Qed.

Lemma lsofSummary_nonempty :
  forall line : string, String.eqb (lsofSummary line) "" = false.
Proof.
  intros line. unfold lsofSummary. apply append_String_nonempty.
Qed.

(** The samples never grow beyond ten. *)
Lemma fdScanLine_bound :
  forall (st : fdScan) (line : string),
    (List.length (samples st) <= 10)%nat ->
    (List.length (samples (fdScanLine st line)) <= 10)%nat.
Proof.
  intros st line Hst. unfold fdScanLine.
  destruct (String.eqb (strings_TrimSpace line) ""); [assumption |].
  destruct (skipHdr st); [assumption |].
  destruct (Nat.ltb_spec (List.length (samples st)) 10) as [Hlt | Hge];
    [| assumption].
  destruct (negb (String.eqb (summarizeLsofLine (strings_TrimSpace line)) ""));
    simpl; [| assumption].
  rewrite length_app. simpl. lia.
Qed.

Lemma fdScan_bound :
  forall (lines : list string) (st : fdScan),
    (List.length (samples st) <= 10)%nat ->
    (List.length (samples (fold_left fdScanLine lines st)) <= 10)%nat.
Proof.
  induction lines as [| line lines IH]; intros st Hst; simpl.
  - assumption.
  - apply IH. now apply fdScanLine_bound.
Qed.

Lemma firstn_full :
  forall (A : Type) (n : nat) (l l' : list A),
    List.length l = n -> firstn n (l ++ l') = l.
Proof.
  intros A n l l' Hlen. subst n.
  rewrite firstn_app, Nat.sub_diag, firstn_all. simpl.
  now rewrite app_nil_r.
Qed.

(** Past the header, each non-blank line with nine fields gives a sample,
    until there are ten. *)
Lemma fdScan_entries :
  forall (lines : list string) (st : fdScan),
    skipHdr st = false ->
    (List.length (samples st) <= 10)%nat ->
    samples (fold_left fdScanLine lines st)
    = firstn 10 (samples st
                 ++ map lsofSummary (filter nineFields (nonBlank lines))).
Proof.
  induction lines as [| line lines IH]; intros st Hhdr Hlen.
  - unfold nonBlank. cbn [fold_left map filter]. rewrite app_nil_r.
    symmetry. now apply firstn_all2.
  - cbn [fold_left]. unfold nonBlank in *. cbn [map filter].
    unfold fdScanLine at 2.
    destruct (String.eqb (strings_TrimSpace line) "") eqn:Hblank; cbn [negb].
    + now apply IH.
    + rewrite Hhdr. cbn [filter].
      destruct (Nat.ltb_spec (List.length (samples st)) 10) as [Hlt | Hge].
      * destruct (nineFields (strings_TrimSpace line)) eqn:Hnine.
        -- rewrite (summarize_nineFields _ Hnine), lsofSummary_nonempty.
           cbn [negb]. rewrite IH; cbn [samples skipHdr].
           ++ now rewrite <- app_assoc.
           ++ reflexivity.
           ++ rewrite length_app. simpl. lia.
        -- rewrite (summarize_short _ Hnine). cbn [String.eqb negb].
           now rewrite IH.
      * rewrite IH by (cbn [samples skipHdr]; auto). cbn [samples].
        assert (Hten : List.length (samples st) = 10%nat) by lia.
        now rewrite !(firstn_full _ _ _ _ Hten).
Qed.

(** The first non-blank line is dropped. *)
Lemma fdScan_header :
  forall (lines : list string) (st : fdScan),
    skipHdr st = true ->
    samples st = [] ->
    samples (fold_left fdScanLine lines st)
    = firstn 10 (map lsofSummary (filter nineFields (tl (nonBlank lines)))).
Proof.
  induction lines as [| line lines IH]; intros st Hhdr Hnil.
  - simpl. now rewrite Hnil.
  - cbn [fold_left]. unfold nonBlank in *. cbn [map filter].
    unfold fdScanLine at 2.
    destruct (String.eqb (strings_TrimSpace line) "") eqn:Hblank; cbn [negb].
    + now apply IH.
    + rewrite Hhdr. cbn [tl].
      rewrite fdScan_entries; cbn [samples skipHdr]; rewrite ?Hnil;
        [reflexivity | reflexivity | simpl; lia].
Qed.

End LsofFacts.




(** C8: the list of samples has at most ten elements, whatever [lsof]
    prints and however many descriptors are counted. *)
Theorem collectDarwinFDs_at_most_ten :
  forall (R : Runtime) (host : Host) (pid : Z),
    (List.length (snd (fst (collectDarwinFDs host pid))) <= 10)%nat.
Proof.
  intros R host pid. unfold collectDarwinFDs.
  destruct (exec_Output host "lsof" ["-nP"; "-p"; strconv_Itoa pid])
    as [out [e |]]; cbn [fst snd].
  - simpl. lia.
  - apply fdScan_bound. simpl. lia.
Qed.

(** ** Memory sampling *)



(** ** Git context *)

Section GitFacts.
Context {R : Runtime}.
Variable fs : FileSystem.

Lemma ancestor_parent :
  forall (i : nat) (dir : string),
    ancestor i (filepath_Dir dir) = ancestor (S i) dir.
Proof.
  intros i dir. unfold ancestor. symmetry. apply Nat.iter_succ_r.
Qed.

Lemma ancestor_top :
  forall (i : nat) (dir : string),
    filepath_Dir dir = dir -> ancestor i dir = dir.
Proof.
  induction i as [| i IH]; intros dir Htop.
  - reflexivity.
  - unfold ancestor in *. simpl. rewrite IH by assumption. assumption.
Qed.

(** A level without [.git] sends the walk to the parent. *)
Lemma walkUp_miss :
  forall (levels : nat) (dir : string),
    hasGitDir fs dir = false ->
    walkUp fs (S levels) dir
    = if String.eqb (filepath_Dir dir) dir then ("", "")
      else walkUp fs levels (filepath_Dir dir).
Proof.
  intros levels dir Hmiss. unfold hasGitDir in Hmiss. simpl.
  destruct (os_Stat fs (filepath_Join dir ".git")) as [[|] |];
    [discriminate | reflexivity | reflexivity].
Qed.

Lemma walkUp_hit :
  forall (levels : nat) (dir : string),
    hasGitDir fs dir = true ->
    walkUp fs (S levels) dir
    = (filepath_Base dir, readBranch fs (filepath_Join dir ".git")).
Proof.
  intros levels dir Hhit. unfold hasGitDir in Hhit. simpl.
  destruct (os_Stat fs (filepath_Join dir ".git")) as [[|] |];
    [reflexivity | discriminate | discriminate].
Qed.

Lemma walkUp_nothing :
  forall (levels : nat) (dir : string),
    (forall i : nat, (i < levels)%nat -> hasGitDir fs (ancestor i dir) = false) ->
    walkUp fs levels dir = ("", "").
Proof.
  induction levels as [| levels IH]; intros dir Hnone.
  - reflexivity.
  - rewrite walkUp_miss by (apply (Hnone O); lia).
    destruct (String.eqb (filepath_Dir dir) dir); [reflexivity |].
    apply IH. intros i Hi. rewrite ancestor_parent. apply Hnone. lia.
Qed.

(** The walk stops at the first level that has a [.git] directory. *)
Lemma walkUp_first :
  forall (k levels : nat) (dir : string),
    (k < levels)%nat ->
    (forall i : nat, (i < k)%nat -> hasGitDir fs (ancestor i dir) = false) ->
    hasGitDir fs (ancestor k dir) = true ->
    walkUp fs levels dir
    = (filepath_Base (ancestor k dir),
       readBranch fs (filepath_Join (ancestor k dir) ".git")).
Proof.
  induction k as [| k IH]; intros levels dir Hk Hbelow Hhit;
    destruct levels as [| levels]; try lia.
  - now apply walkUp_hit.
  - assert (Hmiss : hasGitDir fs dir = false) by (apply (Hbelow O); lia).
    rewrite walkUp_miss by assumption.
    destruct (String.eqb_spec (filepath_Dir dir) dir) as [Htop | Hup].
    + rewrite (ancestor_top (S k) dir Htop) in Hhit. congruence.
    + rewrite <- ancestor_parent. apply IH.
      * lia.
      * intros i Hi. rewrite ancestor_parent. apply Hbelow. lia.
      * now rewrite ancestor_parent.
Qed.

Lemma readBranch_without_ref :
  forall dir : string,
    headWithoutRef fs dir ->
    readBranch fs (filepath_Join dir ".git") = "".
Proof.
  intros dir Hhead. unfold headWithoutRef in Hhead. unfold readBranch.
  destruct (os_ReadFile fs (filepath_Join (filepath_Join dir ".git") "HEAD"))
    as [head |]; [| reflexivity].
  now rewrite Hhead.
Qed.

Lemma readBranch_feature_foo :
  forall (dir head : string),
    os_ReadFile fs (filepath_Join (filepath_Join dir ".git") "HEAD") = Some head ->
    strings_TrimSpace head = "ref: refs/heads/feature/foo" ->
    readBranch fs (filepath_Join dir ".git") = "foo".
Proof.
  intros dir head Hread Htrim. unfold readBranch.
  rewrite Hread, Htrim. reflexivity.
Qed.

End GitFacts.

(** C5: from a working directory two levels below the repository root
    (the first directory on the way up that holds a [.git] directory)
    whose [HEAD] reads [ref: refs/heads/feature/foo], the repository name
    is the base name of the root and the branch is [foo]. *)
Theorem detectGitInfo_two_levels_below_root :
  forall (R : Runtime) (fs : FileSystem) (cwd head : string),
    cwd <> "" ->
    hasGitDir fs cwd = false ->
    hasGitDir fs (ancestor 1 cwd) = false ->
    hasGitDir fs (ancestor 2 cwd) = true ->
    os_ReadFile fs
      (filepath_Join (filepath_Join (ancestor 2 cwd) ".git") "HEAD")
    = Some head ->
    strings_TrimSpace head = "ref: refs/heads/feature/foo" ->
    detectGitInfo fs cwd = (filepath_Base (ancestor 2 cwd), "foo").
Proof.
  intros R fs cwd head Hcwd H0 H1 H2 Hread Htrim.
  unfold detectGitInfo.
  destruct (String.eqb_spec cwd "") as [Hempty | _]; [contradiction |].
  rewrite (walkUp_first fs 2 5 cwd).
  - now rewrite (readBranch_feature_foo fs _ head).
  - lia.
  - intros i Hi.
    destruct i as [| [| i]]; [exact H0 | exact H1 | lia].
  - exact H2.
Qed.

Lemma detectGitInfo_two_levels_below_root_witness :
  detectGitInfo (R := AsciiRuntime)
    (witrCheckout (String.append "ref: refs/heads/feature/foo" (String newline "")))
    "C:\src\witr\internal\proc"
  = ("witr", "foo").
Proof.
  apply (detectGitInfo_two_levels_below_root AsciiRuntime
           (witrCheckout (String.append "ref: refs/heads/feature/foo"
                            (String newline "")))
           "C:\src\witr\internal\proc"
           (String.append "ref: refs/heads/feature/foo" (String newline "")));
    solve [discriminate | reflexivity].
Defined.

(** C6 (amended): [detectGitInfo] is total and has no error result.  An
    empty working directory and the absence of a [.git] directory on the
    five levels of the walk give an empty repository name and an empty
    branch; a [HEAD] that cannot be read or lacks the [ref: ] prefix gives
    an empty branch next to the repository name, the base name of the
    directory that holds [.git]. *)
Theorem detectGitInfo_degrades :
  forall (R : Runtime) (fs : FileSystem),
    detectGitInfo fs "" = ("", "")
    /\ (forall cwd : string,
          (forall i : nat, (i < 5)%nat -> hasGitDir fs (ancestor i cwd) = false) ->
          detectGitInfo fs cwd = ("", ""))
    /\ (forall (cwd : string) (k : nat),
          cwd <> "" ->
          (k < 5)%nat ->
          (forall i : nat, (i < k)%nat -> hasGitDir fs (ancestor i cwd) = false) ->
          hasGitDir fs (ancestor k cwd) = true ->
          headWithoutRef fs (ancestor k cwd) ->
          detectGitInfo fs cwd = (filepath_Base (ancestor k cwd), "")).
Proof.
  intros R fs. split; [reflexivity |]. split.
  - intros cwd Hnone. unfold detectGitInfo.
    destruct (String.eqb cwd ""); [reflexivity |].
    now apply walkUp_nothing.
  - intros cwd k Hcwd Hk Hbelow Hhit Hhead. unfold detectGitInfo.
    destruct (String.eqb_spec cwd "") as [Hempty | _]; [contradiction |].
    rewrite (walkUp_first fs k 5 cwd Hk Hbelow Hhit).
    now rewrite readBranch_without_ref.
Qed.

Lemma detectGitInfo_degrades_witness :
  detectGitInfo (R := AsciiRuntime)
    (witrCheckout "4b825dc642cb6eb9a060e54bf8d69288fbee4904")
    "C:\src\witr\internal"
  = ("witr", "").
Proof.
  apply (proj2 (proj2 (detectGitInfo_degrades AsciiRuntime
                         (witrCheckout "4b825dc642cb6eb9a060e54bf8d69288fbee4904")))
           "C:\src\witr\internal" 1%nat).
  - discriminate.
  - lia.
  - intros i Hi. destruct i as [| i]; [reflexivity | lia].
  - reflexivity.
  - reflexivity.
Defined.

(** C6 as worded fails: with a detached [HEAD] (a commit hash, no [ref: ]
    prefix) the repository name is not empty. *)
Lemma detectGitInfo_detached_head_counterexample :
  strings_HasPrefix
    (strings_TrimSpace (Runtime := AsciiRuntime)
       "4b825dc642cb6eb9a060e54bf8d69288fbee4904") "ref: " = false
  /\ detectGitInfo (R := AsciiRuntime)
       (witrCheckout "4b825dc642cb6eb9a060e54bf8d69288fbee4904") "C:\src\witr"
     = ("witr", "")
  /\ detectGitInfo (R := AsciiRuntime)
       (witrCheckout "4b825dc642cb6eb9a060e54bf8d69288fbee4904") "C:\src\witr"
     <> ("", "").
Proof.
  split; [vm_compute; reflexivity |].
  split; [vm_compute; reflexivity |].
  vm_compute. discriminate.
Qed.

(** ** The tiered acquisition *)

Local Open Scope list_scope.

Section RunFacts.

Lemma runs_bind :
  forall (A B : Type) (p : Prog A) (f : A -> Prog B)
         (tr : list event) (out : outcome B),
    runs (bind p f) tr out ->
    (exists tr1 a tr2,
        runs p tr1 (Returned a) /\ runs (f a) tr2 out /\ tr = (tr1 ++ tr2)%list)
    \/ (runs p tr Panicked /\ out = Panicked).
Proof.
  intros A B p f. induction p as [a | | X c k IH]; intros tr out Hrun.
  - left. exists [], a, tr. cbn in *. auto.
  - right. cbn in *. tauto.
  - cbn [bind runs] in Hrun. destruct Hrun as (x & tr' & -> & Hrun).
    destruct (IH x tr' out Hrun) as [(tr1 & a & tr2 & H1 & H2 & ->) | [H1 ->]].
    + left. exists (observed c x :: tr1), a, tr2. cbn [runs].
      split; [exists x, tr1; auto | auto].
    + right. cbn [runs]. split; [exists x, tr'; auto | reflexivity].
Qed.

Lemma runs_defer :
  forall (A : Type) (handle : Z) (body : Prog A)
         (tr : list event) (out : outcome A),
    runs (defer (call (CloseHandle handle)) body) tr out ->
    exists tr', runs body tr' out /\ tr = (tr' ++ [EvCloseHandle handle])%list.
Proof.
  intros A handle body. induction body as [a | | X c k IH]; intros tr out Hrun.
  - cbn in Hrun. destruct Hrun as (_ & tr' & -> & -> & ->).
    exists []. cbn. auto.
  - cbn in Hrun. destruct Hrun as (_ & tr' & -> & -> & ->).
    exists []. cbn. auto.
  - cbn [defer runs] in Hrun. destruct Hrun as (x & tr' & -> & Hrun).
    destruct (IH x tr' out Hrun) as (tr0 & H0 & ->).
    exists (observed c x :: tr0). cbn [runs]. split; [exists x, tr0; auto | reflexivity].
Qed.

Lemma exec_runs :
  forall (A : Type) (os : System) (p : Prog A) (past : list event),
    runs p (fst (exec os past p)) (snd (exec os past p)).
Proof.
  intros A os p. induction p as [a | | X c k IH]; intros past.
  - cbn. auto.
  - cbn. auto.
  - cbn [exec runs].
    specialize (IH (os past X c) (past ++ [observed c (os past X c)])).
    destruct (exec os (past ++ [observed c (os past X c)]) (k (os past X c)))
      as [tr out].
    cbn [fst snd] in *. exists (os past X c), tr. auto.
Qed.
End RunFacts.

Section Win32Facts.
Context {R : Runtime}.
Variable ptrSize : Z.
Variable pid : Z.

Lemma tierRun_app :
  forall (tr1 tr2 : list event) (st : tierState),
    tierRun ptrSize pid st (tr1 ++ tr2)
    = match tierRun ptrSize pid st tr1 with
      | Some st' => tierRun ptrSize pid st' tr2
      | None => None
      end.
Proof.
  induction tr1 as [| ev tr1 IH]; intros tr2 st; cbn [tierRun app].
  - reflexivity.
  - destruct (tierStep ptrSize pid st ev); [apply IH | reflexivity].
Qed.

Lemma getProcessStartTime_runs :
  forall (handle : Z) (tr : list event) (out : outcome Time),
    runs (getProcessStartTime handle) tr out ->
    exists ret creation t,
      tr = [EvGetProcessTimes handle ret creation] /\ out = Returned t.
Proof.
  intros handle tr out Hrun. unfold getProcessStartTime in Hrun.
  cbn [runs bind call] in Hrun.
  destruct Hrun as ([ret creation] & tr' & -> & Hrun). cbn in Hrun.
  destruct (ret =? 0); cbn in Hrun; destruct Hrun as [-> ->];
    do 3 eexists; split; reflexivity.
Qed.

Lemma readUnicodeString_runs :
  forall (handle : Z) (us : unicodeString)
         (tr : list event) (out : outcome string),
    runs (readUnicodeString handle us) tr out ->
    forallb stringRead tr = true
    /\ ((exists s, out = Returned s) \/ (out = Panicked /\ lengthOne us = true)).
Proof.
  intros handle us tr out Hrun. unfold readUnicodeString, lengthOne in *.
  destruct (Length us =? 0); cbn in Hrun.
  - destruct Hrun as [-> ->]. split; [reflexivity | eauto].
  - destruct (Length us / 2 =? 0); cbn in Hrun.
    + destruct Hrun as [-> ->]. split; [reflexivity | auto].
    + destruct Hrun as ([ret buf] & tr' & -> & Hrun). cbn in Hrun.
      destruct (ret =? 0); cbn in Hrun; destruct Hrun as [-> ->];
        (split; [reflexivity | eauto]).
Qed.

(** Reads of strings leave the full-access tier in progress. *)
Lemma stringReads_in_progress :
  forall tr : list event,
    forallb stringRead tr = true ->
    tierRun ptrSize pid (TierInProgress FullAccess) tr
    = Some (TierInProgress FullAccess)
    /\ existsb limitedOpenDenied tr = false.
Proof.
  induction tr as [| ev tr IH]; intros Hall.
  - auto.
  - cbn [forallb] in Hall. apply andb_prop in Hall as [Hev Htr].
    destruct ev; try discriminate. cbn. now apply IH.
Qed.

Ltac tests_known :=
  repeat (cbn; match goal with
               | H : (_ =? _) = _ |- _ => rewrite H
               end); cbn.

(** The full-access tier: it fails and leaves [Env] as it was, or it
    succeeds with an empty [Env], or it panics on a string of length 1. *)
Lemma getFullProcessInfo_runs :
  forall (handle p : Z) (info : Win32ProcessInfo) (tr : list event)
         (out : outcome (Win32ProcessInfo * option error)),
    runs (getFullProcessInfo ptrSize handle p info) tr out ->
    existsb limitedOpenDenied tr = false
    /\ ((exists info' e,
            out = Returned (info', Some e) /\ Env info' = Env info
            /\ tierRun ptrSize pid (TierInProgress FullAccess) tr
               = Some (TierFailed FullAccess))
        \/ (exists info',
               out = Returned (info', None) /\ Env info' = Some []
               /\ tierRun ptrSize pid (TierInProgress FullAccess) tr
                  = Some (TierInProgress FullAccess))
        \/ (out = Panicked /\ existsb readsLengthOne tr = true
            /\ tierRun ptrSize pid (TierInProgress FullAccess) tr
               = Some (TierInProgress FullAccess))).
Proof.
  intros handle p info tr out Hrun. unfold getFullProcessInfo in Hrun.
  apply runs_bind in Hrun as [(tr1 & t & tr2 & H1 & Hrun & ->) | [H1 _]];
    apply getProcessStartTime_runs in H1 as (ret0 & creation & t' & -> & Ht);
    [clear Ht | discriminate].
  cbn [runs bind call] in Hrun.
  destruct Hrun as ([status pbi] & trN & -> & Hrun). cbn [bind] in Hrun.
  destruct (status =? 0) eqn:Hstatus; cbn [negb] in Hrun;
    [| cbn in Hrun; destruct Hrun as [-> ->]; tests_known;
       split; [reflexivity | left; eauto 6]].
  destruct (PebBaseAddress pbi =? 0) eqn:Hpeb;
    [cbn in Hrun; destruct Hrun as [-> ->]; tests_known;
     split; [reflexivity | left; eauto 6] |].
  cbn [runs bind call] in Hrun.
  destruct Hrun as ([ret1 pebPtr] & trP & -> & Hrun). cbn [bind] in Hrun.
  destruct (ret1 =? 0) eqn:Hret1;
    [cbn in Hrun; destruct Hrun as [-> ->]; tests_known;
     split; [reflexivity | left; eauto 6] |].
  cbn [runs bind call] in Hrun.
  destruct Hrun as ([ret2 params] & trQ & -> & Hrun). cbn [bind] in Hrun.
  destruct (ret2 =? 0) eqn:Hret2;
    [cbn in Hrun; destruct Hrun as [-> ->]; tests_known;
     split; [reflexivity | left; eauto 6] |].
  cbn [app observed fst snd].
  match goal with
  | |- context [existsb _ (?e1 :: ?e2 :: ?e3 :: ?e4 :: trQ)] =>
      assert (Hden4 : existsb limitedOpenDenied (e1 :: e2 :: e3 :: e4 :: trQ)
                      = existsb limitedOpenDenied trQ) by reflexivity;
      assert (Hlen4 : existsb readsLengthOne (e1 :: e2 :: e3 :: e4 :: trQ)
                      = readsLengthOne e4 || existsb readsLengthOne trQ)
        by reflexivity;
      assert (Hrun4 : tierRun ptrSize pid (TierInProgress FullAccess)
                        (e1 :: e2 :: e3 :: e4 :: trQ)
                      = tierRun ptrSize pid (TierInProgress FullAccess) trQ)
        by (tests_known; reflexivity);
      rewrite Hden4, Hlen4, Hrun4; clear Hden4 Hlen4 Hrun4
  end.
  cbn [readsLengthOne].
  apply runs_bind in Hrun as [(trA & cwd & tr3 & HA & Hrun & ->) | [HA ->]];
    apply readUnicodeString_runs in HA as [HAtr [[sA HAout] | [HAout HAlen]]];
    try discriminate.
  2:{ destruct (stringReads_in_progress _ HAtr) as [Hst Hden].
      split; [exact Hden |]. right; right.
      rewrite HAlen. cbn [orb]. auto. }
  clear sA HAout.
  apply runs_bind in Hrun as [(trB & cmd & tr4 & HB & Hrun & ->) | [HB ->]];
    apply readUnicodeString_runs in HB as [HBtr [[sB HBout] | [HBout HBlen]]];
    try discriminate.
  2:{ assert (Hall : forallb stringRead (trA ++ tr3) = true)
        by (rewrite forallb_app, HAtr, HBtr; reflexivity).
      destruct (stringReads_in_progress _ Hall) as [Hst Hden].
      split; [exact Hden |]. right; right.
      rewrite HBlen. rewrite orb_true_r. cbn [orb]. auto. }
  clear sB HBout.
  apply runs_bind in Hrun as [(trC & exe & tr5 & HC & Hrun & ->) | [HC ->]];
    apply readUnicodeString_runs in HC as [HCtr [[sC HCout] | [HCout HClen]]];
    try discriminate.
  2:{ assert (Hall : forallb stringRead (trA ++ trB ++ tr4) = true)
        by (rewrite !forallb_app, HAtr, HBtr, HCtr; reflexivity).
      destruct (stringReads_in_progress _ Hall) as [Hst Hden].
      split; [exact Hden |]. right; right.
      rewrite HClen. rewrite !orb_true_r. auto. }
  clear sC HCout.
  cbn in Hrun. destruct Hrun as [-> ->].
  assert (Hall : forallb stringRead (trA ++ trB ++ trC ++ []) = true)
    by (rewrite !forallb_app, HAtr, HBtr, HCtr; reflexivity).
  destruct (stringReads_in_progress _ Hall) as [Hst Hden].
  split; [exact Hden |]. right; left. eauto.
Qed.

(** The snapshot lookup: one snapshot, released if it was valid. *)
Lemma getInfoFromSnapshot_runs :
  forall (tr : list event) (out : outcome (Z * string * option error)),
    runs (getInfoFromSnapshot ptrSize pid) tr out ->
    exists snap entries rest,
      tr = EvCreateToolhelp32Snapshot TH32CS_SNAPPROCESS 0 snap entries :: rest
      /\ (rest = [] \/ rest = [EvCloseHandle snap])
      /\ if snapshotFinds ptrSize pid snap entries
         then exists pe32,
                findEntry ptrSize pid entries = Some pe32
                /\ out = Returned (int ptrSize (ParentProcessID pe32),
                                   syscall_UTF16ToString (ExeFile pe32), None)
         else exists e, out = Returned (0, ""%string, Some e).
Proof.
  intros tr out Hrun. unfold getInfoFromSnapshot in Hrun.
  cbn [runs bind call] in Hrun.
  destruct Hrun as ([snap entries] & rest & -> & Hrun). cbn [bind] in Hrun.
  exists snap, entries, rest. cbn [observed fst snd].
  split; [reflexivity |]. unfold snapshotFinds.
  destruct (snap =? InvalidHandle ptrSize) eqn:Hsnap; cbn [negb andb].
  - cbn in Hrun. destruct Hrun as [-> ->]. eauto.
  - apply runs_defer in Hrun as (tr' & Hrun & ->).
    destruct entries as [| pe32 entries'].
    + cbn in Hrun. destruct Hrun as [-> ->]. cbn. eauto.
    + destruct (findEntry ptrSize pid (pe32 :: entries')) as [found |];
        cbn in Hrun; destruct Hrun as [-> ->]; cbn; eauto.
Qed.

(** The second step of [GetProcessDetailedInfo]: a granted limited-access
    open gives the limited-access tier, a denied one the snapshot-only
    lookup. *)
Lemma limitedOrSnapshot_runs :
  forall (info : Win32ProcessInfo) (tr : list event)
         (out : outcome (Win32ProcessInfo * option error)),
    runs (limitedOrSnapshot ptrSize pid info) tr out ->
    (exists handle rest info',
        tr = EvOpenProcess PROCESS_QUERY_LIMITED_INFORMATION false
               (uint32 pid) handle None :: rest
        /\ tierRun ptrSize pid (TierInProgress LimitedAccess) rest
           = Some (TierInProgress LimitedAccess)
        /\ existsb limitedOpenDenied rest = false
        /\ existsb readsLengthOne rest = false
        /\ out = Returned (info', None)
        /\ Env info' = Some [] /\ Cwd info' = ""%string)
    \/ (exists handle e snap entries rest,
          tr = EvOpenProcess PROCESS_QUERY_LIMITED_INFORMATION false
                 (uint32 pid) handle (Some e)
               :: EvCreateToolhelp32Snapshot TH32CS_SNAPPROCESS 0 snap entries
               :: rest
          /\ (rest = [] \/ rest = [EvCloseHandle snap])
          /\ if snapshotFinds ptrSize pid snap entries
             then exists pe32,
                    findEntry ptrSize pid entries = Some pe32
                    /\ out = Returned
                         ({| PPID := int ptrSize (ParentProcessID pe32);
                             CommandLine := syscall_UTF16ToString (ExeFile pe32);
                             Exe := syscall_UTF16ToString (ExeFile pe32);
                             Cwd := Cwd info; Env := Env info;
                             StartedAt := StartedAt info |}, None)
             else out = Returned (info, Some e)).
Proof.
  intros info tr out Hrun. unfold limitedOrSnapshot in Hrun.
  cbn [runs bind call] in Hrun.
  destruct Hrun as ([handle [e |]] & tr' & -> & Hrun); cbn [bind] in Hrun.
  - right.
    apply runs_bind in Hrun as [(tr1 & r & tr2 & H1 & Hrun & ->) | [H1 ->]];
      apply getInfoFromSnapshot_runs in H1
        as (snap & entries & rest & -> & Hrest & Hfound).
    + exists handle, e, snap, entries, rest. cbn [observed fst snd].
      destruct (snapshotFinds ptrSize pid snap entries).
      * destruct Hfound as (pe32 & Hfind & Hr). injection Hr as ->.
        cbn in Hrun. destruct Hrun as [-> ->]. rewrite app_nil_r.
        repeat split; eauto.
      * destruct Hfound as (e' & Hr). injection Hr as ->.
        cbn in Hrun. destruct Hrun as [-> ->]. rewrite app_nil_r.
        repeat split; eauto.
    + destruct (snapshotFinds ptrSize pid snap entries);
        [destruct Hfound as (? & _ & Hr) | destruct Hfound as (? & Hr)];
        discriminate.
  - left.
    apply runs_defer in Hrun as (tr0 & Hrun & ->).
    apply runs_bind in Hrun as [(tr1 & t & tr2 & H1 & Hrun & ->) | [H1 _]];
      apply getProcessStartTime_runs in H1 as (ret0 & creation & t' & -> & Ht);
      [clear Ht | discriminate].
    unfold getProcessImageName in Hrun. cbn [runs bind call] in Hrun.
    destruct Hrun as ([ret1 written] & tr3 & -> & Hrun). cbn [bind] in Hrun.
    assert (Himg : exists exePath,
               (if ret1 =? 0 then Ret ""%string
                else Ret (syscall_UTF16ToString written)) = Ret exePath)
      by (destruct (ret1 =? 0); eauto).
    destruct Himg as (exePath & Himg). rewrite Himg in Hrun. cbn [bind] in Hrun.
    apply runs_bind in Hrun as [(tr4 & r & tr5 & H4 & Hrun & ->) | [H4 _]];
      apply getInfoFromSnapshot_runs in H4
        as (snap & entries & rest & -> & Hrest & Hfound).
    + destruct r as [[ppid exe] snapErr]. cbn in Hrun. destruct Hrun as [-> ->].
      do 3 eexists. cbn [observed fst snd app].
      split; [reflexivity |].
      destruct Hrest as [-> | ->]; cbn; repeat split; reflexivity.
    + destruct (snapshotFinds ptrSize pid snap entries);
        [destruct Hfound as (? & _ & Hr) | destruct Hfound as (? & Hr)];
        discriminate.
Qed.

(** Releasing a handle keeps the state a run of the second step ends
    in. *)
Lemma limitedOrSnapshot_tiers :
  forall (info : Win32ProcessInfo) (tr : list event)
         (out : outcome (Win32ProcessInfo * option error)),
    Env info = None ->
    runs (limitedOrSnapshot ptrSize pid info) tr out ->
    exists final,
      tierRun ptrSize pid (TierFailed FullAccess) tr = Some final
      /\ resolves final out
      /\ (forall handle, tierStep ptrSize pid final (EvCloseHandle handle)
                         = Some final)
      /\ exists info' err,
           out = Returned (info', err)
           /\ Env info' = if existsb limitedOpenDenied tr then None else Some [].
Proof.
  intros info tr out Henv Hrun.
  apply limitedOrSnapshot_runs in Hrun
    as [(handle & rest & info' & -> & Hrest & Hden & _ & -> & Henv' & _)
       | (handle & e & snap & entries & rest & -> & Hrest & Hfound)].
  - exists (TierInProgress LimitedAccess). cbn. rewrite Hrest, Hden.
    repeat split; eauto.
  - exists (if snapshotFinds ptrSize pid snap entries
            then TierSucceeded SnapshotOnly else TierFailed SnapshotOnly).
    cbn [tierRun tierStep existsb limitedOpenDenied isSome orb].
    rewrite Z.eqb_refl. cbn [orb].
    destruct (snapshotFinds ptrSize pid snap entries) eqn:Hfinds.
    + destruct Hfound as (pe32 & _ & ->).
      destruct Hrest as [-> | ->]; cbn; rewrite Hfinds; cbn;
        repeat split; eauto.
    + subst out.
      destruct Hrest as [-> | ->]; cbn; rewrite Hfinds; cbn;
        repeat split; eauto.
Qed.

(** Every run of [GetProcessDetailedInfo] goes through the tiers in
    order, and what it returns has no environment. *)
Lemma GetProcessDetailedInfo_runs :
  forall (tr : list event) (out : outcome (Win32ProcessInfo * option error)),
    runs (GetProcessDetailedInfo ptrSize pid) tr out ->
    exists final,
      tierRun ptrSize pid NotAttempted tr = Some final
      /\ resolves final out
      /\ match out with
         | Panicked => existsb readsLengthOne tr = true
         | Returned (info, _) =>
             Env info = if existsb limitedOpenDenied tr then None else Some []
         end.
Proof.
  intros tr out Hrun. unfold GetProcessDetailedInfo in Hrun.
  cbn [runs bind call] in Hrun.
  destruct Hrun as ([handle [e |]] & tr' & -> & Hrun); cbn [bind] in Hrun;
    cbn [observed fst snd tierRun tierStep existsb limitedOpenDenied
         readsLengthOne isSome orb];
    rewrite Z.eqb_refl.
  - apply limitedOrSnapshot_tiers in Hrun
      as (final & Hfinal & Hres & _ & info' & err & -> & Henv);
      [| reflexivity].
    exists final. change (fullAccessMask =? PROCESS_QUERY_LIMITED_INFORMATION)
      with false. cbn [orb]. auto.
  - apply runs_defer in Hrun as (tr0 & Hrun & ->).
    apply runs_bind in Hrun as [(tr1 & r & tr2 & H1 & Hrun & ->) | [H1 ->]];
      apply getFullProcessInfo_runs in H1
        as [Hden [(info' & e & Hout & Henv & Hfull)
                 | [(info' & Hout & Henv & Hfull)
                   | (Hout & Hlen & Hfull)]]];
      try discriminate.
    + injection Hout as ->. cbn in Henv.
      apply limitedOrSnapshot_tiers in Hrun
        as (final & Hfinal & Hres & Hclose & info2 & err & -> & Henv2);
        [| assumption].
      exists final. rewrite !tierRun_app, Hfull, Hfinal. cbn [tierRun].
      rewrite Hclose. rewrite !existsb_app, Hden. cbn.
      rewrite orb_false_r. auto.
    + injection Hout as ->. cbn in Hrun. destruct Hrun as [-> ->].
      exists (TierInProgress FullAccess).
      rewrite !tierRun_app, Hfull. rewrite !existsb_app, Hden. cbn. eauto.
    + exists (TierInProgress FullAccess).
      rewrite !tierRun_app, Hfull. rewrite !existsb_app, Hlen. cbn. auto.
Qed.
End Win32Facts.

(** What the state machine accepts before a call. *)
Lemma tierRun_before :
  forall (ptrSize pid : Z) (pre : list event) (ev : event)
         (post : list event) (st final : tierState),
    tierRun ptrSize pid st (pre ++ ev :: post) = Some final ->
    exists st',
      tierRun ptrSize pid st pre = Some st'
      /\ tierStep ptrSize pid st' ev <> None.
Proof.
  intros ptrSize pid pre ev post st final Hrun.
  rewrite tierRun_app in Hrun.
  destruct (tierRun ptrSize pid st pre) as [st' |]; [| discriminate].
  exists st'. split; [reflexivity |].
  cbn [tierRun] in Hrun.
  destruct (tierStep ptrSize pid st' ev); [discriminate | discriminate Hrun].
Qed.

(** C1: every run of [GetProcessDetailedInfo] is a run of the tier state
    machine, which starts with the full-access open and ends in a state
    that resolves the acquisition.  The limited-access open is made only
    when the full-access tier has failed (open denied, query failed,
    control-block address zero, control block or parameters unreadable);
    a snapshot is taken only when the limited-access open has been
    denied (the snapshot-only tier) or granted (the parent-PID lookup of
    the limited-access tier itself); and a run that a tier resolves makes
    no call of a later tier and returns a nil error. *)
Theorem GetProcessDetailedInfo_tiers_in_order :
  forall (R : Runtime) (ptrSize pid : Z) (tr : list event)
         (out : outcome (Win32ProcessInfo * option error)),
    runs (GetProcessDetailedInfo ptrSize pid) tr out ->
    (exists final,
        tierRun ptrSize pid NotAttempted tr = Some final /\ resolves final out)
    /\ (forall (pre : list event) (ev : event) (post : list event),
          tr = pre ++ ev :: post ->
          limitedOpen ev = true ->
          tierRun ptrSize pid NotAttempted pre = Some (TierFailed FullAccess))
    /\ (forall (pre : list event) (ev : event) (post : list event),
          tr = pre ++ ev :: post ->
          snapshotCall ev = true ->
          tierRun ptrSize pid NotAttempted pre = Some (TierFailed LimitedAccess)
          \/ tierRun ptrSize pid NotAttempted pre
             = Some (TierInProgress LimitedAccess)).
Proof.
  intros R ptrSize pid tr out Hrun.
  destruct (GetProcessDetailedInfo_runs ptrSize pid tr out Hrun)
    as (final & Hfinal & Hres & _).
  split; [exists final; split; assumption |]. split.
  - intros pre ev post -> Hev.
    destruct (tierRun_before ptrSize pid pre ev post _ _ Hfinal)
      as (st & Hpre & Hstep).
    rewrite Hpre. destruct ev; try discriminate. cbn in Hev.
    apply Z.eqb_eq in Hev. subst access.
    destruct st as [| [| |] | [| |] | [| |]]; cbn in Hstep;
      congruence.
  - intros pre ev post -> Hev.
    destruct (tierRun_before ptrSize pid pre ev post _ _ Hfinal)
      as (st & Hpre & Hstep).
    rewrite Hpre. destruct ev; try discriminate.
    destruct st as [| [| |] | [| |] | [| |]]; cbn in Hstep;
      try congruence; auto.
Qed.

Lemma GetProcessDetailedInfo_tiers_in_order_witness :
  tierRun 8 42 NotAttempted
    [EvOpenProcess fullAccessMask false 42 0 (Some (ErrHost "Access is denied."))]
  = Some (TierFailed FullAccess).
Proof.
  apply (proj1 (proj2 (GetProcessDetailedInfo_tiers_in_order AsciiRuntime 8 42
                         (fst (exec accessDenied []
                                 (GetProcessDetailedInfo (R := AsciiRuntime) 8 42)))
                         (snd (exec accessDenied []
                                 (GetProcessDetailedInfo (R := AsciiRuntime) 8 42)))
                         (exec_runs _ _ _ _)))
           [EvOpenProcess fullAccessMask false 42 0 (Some (ErrHost "Access is denied."))]
           (EvOpenProcess PROCESS_QUERY_LIMITED_INFORMATION false 42 0
              (Some (ErrHost "Access is denied.")))
           [EvCreateToolhelp32Snapshot TH32CS_SNAPPROCESS 0 100
              [snapshotEntry 4 0 [83; 121; 115; 116; 101; 109; 0];
               snapshotEntry 42 4 [97; 46; 101; 120; 101; 0]];
            EvCloseHandle 100]).
  - reflexivity.
  - reflexivity.
Defined.

(** Spec scenario: the control-block address of the full-access tier is
    zero.  The tier stops at the query, the limited-access open follows,
    and the result has an empty, non-nil [Env] and an empty [Cwd]. *)
Example control_block_zero_falls_through :
  exec controlBlockZero [] (GetProcessDetailedInfo (R := AsciiRuntime) 8 42)
  = ([EvOpenProcess fullAccessMask false 42 11 None;
      EvGetProcessTimes 11 1 {| LowDateTime := 0; HighDateTime := 30000000 |};
      EvNtQueryInformationProcess 11 0
        {| ExitStatus := 0; PebBaseAddress := 0; AffinityMask := 0;
           BasePriority := 0; UniqueProcessId := 42;
           InheritedFromUniqueProcessId := 4 |};
      EvOpenProcess PROCESS_QUERY_LIMITED_INFORMATION false 42 12 None;
      EvGetProcessTimes 12 1 {| LowDateTime := 0; HighDateTime := 30000000 |};
      EvQueryFullProcessImageNameW 12 1 [67; 58; 92; 97; 46; 101; 120; 101];
      EvCreateToolhelp32Snapshot TH32CS_SNAPPROCESS 0 100
        [snapshotEntry 4 0 [83; 121; 115; 116; 101; 109; 0];
         snapshotEntry 42 4 [97; 46; 101; 120; 101; 0]];
      EvCloseHandle 100; EvCloseHandle 12; EvCloseHandle 11],
     Returned
       ({| PPID := 4; CommandLine := "a.exe"; Exe := "C:\a.exe";
           Cwd := ""%string; Env := Some [];
           StartedAt := time_Unix 0 1240428288000000000 |}, None)).
Proof. vm_compute. reflexivity. Qed.

(** C2 (amended): when both handle opens are denied and the snapshot has
    an entry for the PID, the result holds the parent PID, the image file
    name and, as command line, the image file name again; the working
    directory, the environment and the start time keep their zero
    values. *)
Theorem GetProcessDetailedInfo_snapshot_only :
  forall (R : Runtime) (ptrSize pid : Z) (tr : list event)
         (out : outcome (Win32ProcessInfo * option error))
         (flags p snap : Z) (entries : list PROCESSENTRY32)
         (pe32 : PROCESSENTRY32),
    runs (GetProcessDetailedInfo ptrSize pid) tr out ->
    existsb openGranted tr = false ->
    In (EvCreateToolhelp32Snapshot flags p snap entries) tr ->
    snap <> InvalidHandle ptrSize ->
    findEntry ptrSize pid entries = Some pe32 ->
    out = Returned
            ({| PPID := int ptrSize (ParentProcessID pe32);
                CommandLine := syscall_UTF16ToString (ExeFile pe32);
                Exe := syscall_UTF16ToString (ExeFile pe32);
                Cwd := ""%string; Env := None; StartedAt := zeroTime |},
             None).
Proof.
  intros R ptrSize pid tr out flags p snap entries pe32
         Hrun Hdenied Hin Hsnap Hfind.
  unfold GetProcessDetailedInfo in Hrun. cbn [runs bind call] in Hrun.
  destruct Hrun as ([handle [e |]] & tr' & -> & Hrun); cbn [bind] in Hrun;
    cbn [observed fst snd existsb openGranted orb] in Hdenied;
    [| discriminate].
  apply limitedOrSnapshot_runs in Hrun
    as [(handle' & rest & info' & -> & _)
       | (handle' & e' & snap' & entries' & rest & -> & Hrest & Hfound)].
  - cbn in Hdenied. discriminate.
  - assert (Hsame : snap' = snap /\ entries' = entries).
    { cbn [observed fst snd] in Hin.
      destruct Hin as [Hin | [Hin | [Hin | Hin]]]; try discriminate.
      - injection Hin as _ _ -> ->. auto.
      - destruct Hrest as [-> | ->]; cbn in Hin;
          [contradiction | destruct Hin as [Hin | []]; discriminate]. }
    destruct Hsame as [-> ->].
    unfold snapshotFinds in Hfound. rewrite Hfind in Hfound.
    apply Z.eqb_neq in Hsnap. rewrite Hsnap in Hfound. cbn in Hfound.
    destruct Hfound as (found & Hfound & ->).
    injection Hfound as <-. reflexivity.
Qed.

Lemma GetProcessDetailedInfo_snapshot_only_witness :
  snd (exec accessDenied [] (GetProcessDetailedInfo (R := AsciiRuntime) 8 42))
  = Returned
      ({| PPID := 4; CommandLine := "a.exe"; Exe := "a.exe";
          Cwd := ""%string; Env := None; StartedAt := zeroTime |}, None).
Proof.
  apply (GetProcessDetailedInfo_snapshot_only AsciiRuntime 8 42
           (fst (exec accessDenied [] (GetProcessDetailedInfo (R := AsciiRuntime) 8 42)))
           _ TH32CS_SNAPPROCESS 0 100
           [snapshotEntry 4 0 [83; 121; 115; 116; 101; 109; 0];
            snapshotEntry 42 4 [97; 46; 101; 120; 101; 0]]
           (snapshotEntry 42 4 [97; 46; 101; 120; 101; 0])).
  - apply exec_runs.
  - reflexivity.
  - cbn. auto.
  - unfold InvalidHandle. lia.
  - reflexivity.
Defined.

(** C2 as worded fails: with both opens denied, the command line is set,
    to the image file name of the snapshot. *)
Lemma GetProcessDetailedInfo_snapshot_only_counterexample :
  existsb openGranted
    (fst (exec accessDenied [] (GetProcessDetailedInfo (R := AsciiRuntime) 8 42)))
  = false
  /\ exists info,
       snd (exec accessDenied [] (GetProcessDetailedInfo (R := AsciiRuntime) 8 42))
       = Returned (info, None)
       /\ CommandLine info = "a.exe"%string
       /\ CommandLine info <> CommandLine zeroWin32ProcessInfo.
Proof.
  split; [reflexivity |].
  eexists. split; [reflexivity |]. split; [reflexivity |].
  cbn. discriminate.
Qed.

(** C10: whatever the system answers, the [Env] that
    [GetProcessDetailedInfo] returns has no element: it is the empty
    sequence after the full-access and the limited-access tiers, and nil
    when the limited-access open was denied.  The only runs that do not
    return are those that panic on a parameters string of length 1. *)
Theorem GetProcessDetailedInfo_env_empty :
  forall (R : Runtime) (ptrSize pid : Z) (tr : list event)
         (out : outcome (Win32ProcessInfo * option error)),
    runs (GetProcessDetailedInfo ptrSize pid) tr out ->
    match out with
    | Returned (info, _) =>
        lenEnv info = 0%nat
        /\ Env info = if existsb limitedOpenDenied tr then None else Some []
    | Panicked => existsb readsLengthOne tr = true
    end.
Proof.
  intros R ptrSize pid tr out Hrun.
  destruct (GetProcessDetailedInfo_runs ptrSize pid tr out Hrun)
    as (final & _ & _ & Henv).
  destruct out as [[info err] |]; [| exact Henv].
  split; [| exact Henv].
  unfold lenEnv. rewrite Henv.
  destruct (existsb limitedOpenDenied tr); reflexivity.
Qed.

Lemma GetProcessDetailedInfo_env_empty_witness :
  match snd (exec accessDenied [] (GetProcessDetailedInfo (R := AsciiRuntime) 8 42)) with
  | Returned (info, _) =>
      lenEnv info = 0%nat
      /\ Env info
         = if existsb limitedOpenDenied
                (fst (exec accessDenied []
                        (GetProcessDetailedInfo (R := AsciiRuntime) 8 42)))
           then None else Some []
  | Panicked =>
      existsb readsLengthOne
        (fst (exec accessDenied []
                (GetProcessDetailedInfo (R := AsciiRuntime) 8 42)))
      = true
  end.
Proof.
  apply (GetProcessDetailedInfo_env_empty AsciiRuntime 8 42).
  apply exec_runs.
Defined.

(** * Further properties *)


(** ** Numbers read from the tools *)

Lemma digitOf_range :
  forall (c : ascii) (d : Z), digitOf c = Some d -> 0 <= d <= 9.
Proof.
  intros c d H. unfold digitOf in H.
  destruct ((48 <=? Z.of_nat (nat_of_ascii c))
            && (Z.of_nat (nat_of_ascii c) <=? 57)) eqn:Hc; [| discriminate].
  apply andb_prop in Hc as [H1 H2].
  apply Z.leb_le in H1. apply Z.leb_le in H2.
  injection H as <-. lia.
Qed.

Lemma parseDigits_nonneg :
  forall (s : string) (acc n : Z),
    0 <= acc -> parseDigits s acc = Some n -> 0 <= n.
Proof.
  induction s as [| c s IH]; intros acc n Hacc H; cbn in H.
  - injection H as <-. assumption.
  - destruct (digitOf c) as [d |] eqn:Hd; [| discriminate].
    apply digitOf_range in Hd. apply (IH (10 * acc + d)); [lia | assumption].
Qed.

Lemma parseDecimal_nonneg :
  forall (s : string) (n : Z), parseDecimal s = Some n -> 0 <= n.
Proof.
  intros s n H. destruct s as [| c s']; [discriminate |].
  apply (parseDigits_nonneg (String c s') 0 n); [lia | exact H].
Qed.

Lemma strconv_ParseUint_range :
  forall (s : string) (n : Z),
    strconv_ParseUint s = Some n -> 0 <= n < 2 ^ 64.
Proof.
  intros s n H. unfold strconv_ParseUint in H.
  destruct (parseDecimal s) as [m |] eqn:Hm; [| discriminate].
  apply parseDecimal_nonneg in Hm.
  destruct (Z.ltb_spec m (2 ^ 64)); [| discriminate].
  injection H as <-. lia.
Qed.

Lemma strconv_Atoi_range :
  forall (s : string) (n : Z),
    strconv_Atoi s = Some n -> - 2 ^ 63 <= n < 2 ^ 63.
Proof.
  intros s n H. unfold strconv_Atoi in H.
  assert (Hplain : forall t,
             match parseDecimal t with
             | Some m => if m <? 2 ^ 63 then Some m else None
             | None => None
             end = Some n -> - 2 ^ 63 <= n < 2 ^ 63).
  { intros t Ht. destruct (parseDecimal t) as [m |] eqn:Hm; [| discriminate].
    apply parseDecimal_nonneg in Hm.
    destruct (Z.ltb_spec m (2 ^ 63)); [| discriminate].
    injection Ht as <-. lia. }
  destruct s as [| c s']; [discriminate |].
  destruct (Ascii.eqb_spec c "-") as [-> | Hminus].
  - destruct (parseDecimal s') as [m |] eqn:Hm; [| discriminate].
    apply parseDecimal_nonneg in Hm.
    destruct (Z.leb_spec m (2 ^ 63)); [| discriminate].
    injection H as <-. lia.
  - destruct (Ascii.eqb_spec c "+") as [-> | Hplus].
    + now apply (Hplain s').
    + apply (Hplain (String c s')).
      destruct c as [[] [] [] [] [] [] [] []]; try exact H; congruence.
Qed.

(** ** Darwin sampling, beyond the claims *)

Section DarwinFacts.
Context {R : Runtime}.
Variable host : Host.

Lemma readDarwinMemory_error :
  forall pid : Z,
    snd (readDarwinMemory host pid) = None <-> psUsable host pid = true.
Proof.
  intros pid. unfold readDarwinMemory, psUsable.
  destruct (exec_Output host "ps"
              ["-p"; strconv_Itoa pid; "-o"; "rss=,vsz=,thcount="])
    as [out [e |]]; cbn [snd].
  - split; discriminate.
  - destruct (Nat.ltb_spec (List.length (strings_Fields (strings_TrimSpace out))) 3)
      as [Hlt | Hge]; cbn [snd].
    + split; [discriminate |]. intros H. apply Nat.leb_le in H. lia.
    + split; [| reflexivity]. intros _. apply Nat.leb_le. lia.
Qed.

Lemma collectDarwinFDs_error :
  forall pid : Z,
    snd (collectDarwinFDs host pid) = None <-> lsofUsable host pid = true.
Proof.
  intros pid. unfold collectDarwinFDs, lsofUsable.
  destruct (exec_Output host "lsof" ["-nP"; "-p"; strconv_Itoa pid])
    as [out [e |]]; cbn [snd]; split; congruence.
Qed.


End DarwinFacts.


(** X1: [ReadExtendedInfo] returns an error only when memory sampling and
    descriptor sampling both fail, and the error is then the join of the
    two; a failure of one of them alone is not reported. *)
Theorem ReadExtendedInfo_error_when_both_fail :
  forall (R : Runtime) (host : Host) (pid : Z),
    match errorOfExtendedInfo (ReadExtendedInfo host pid) with
    | None => psUsable host pid = true \/ lsofUsable host pid = true
    | Some err =>
        psUsable host pid = false /\ lsofUsable host pid = false
        /\ exists memErr fdErr,
             err = ErrJoin memErr fdErr
             /\ snd (readDarwinMemory host pid) = Some memErr
             /\ snd (collectDarwinFDs host pid) = Some fdErr
    end.
Proof.
  intros R host pid.
  pose proof (readDarwinMemory_error host pid) as Hmem.
  pose proof (collectDarwinFDs_error host pid) as Hfd.
  unfold ReadExtendedInfo, errorOfExtendedInfo.
  destruct (readDarwinMemory host pid) as [[memInfo threadCount] [memErr |]];
    destruct (collectDarwinFDs host pid) as [[fdCount fileDescs] [fdErr |]];
    cbn [snd] in *.
  - split; [| split]; [| | eauto].
    + destruct (psUsable host pid); [| reflexivity].
      destruct Hmem as [_ Hmem]. discriminate (Hmem eq_refl).
    + destruct (lsofUsable host pid); [| reflexivity].
      destruct Hfd as [_ Hfd]. discriminate (Hfd eq_refl).
  - right. now apply Hfd.
  - left. now apply Hmem.
  - left. now apply Hmem.
Qed.

Lemma int64_succ : forall a : Z, int64 (int64 a + 1) = int64 (a + 1).
Proof.
  intros a. unfold int64.
  replace ((a + 2 ^ 63) mod 2 ^ 64 - 2 ^ 63 + 1 + 2 ^ 63)
    with ((a + 2 ^ 63) mod 2 ^ 64 + 1) by lia.
  rewrite Zplus_mod_idemp_l.
  replace (a + 2 ^ 63 + 1) with (a + 1 + 2 ^ 63) by lia. reflexivity.
Qed.

Lemma int64_small :
  forall z : Z, - 2 ^ 63 <= z < 2 ^ 63 -> int64 z = z.
Proof.
  intros z Hz. unfold int64. rewrite Z.mod_small; lia.
Qed.

Section LsofCount.
Context {R : Runtime}.

Lemma fdScanLine_count :
  forall (st : fdScan) (line : string),
    String.eqb (strings_TrimSpace line) "" = false ->
    skipHdr st = false ->
    count (fdScanLine st line) = int64 (count st + 1)
    /\ skipHdr (fdScanLine st line) = false.
Proof.
  intros st line Hblank Hhdr. unfold fdScanLine. rewrite Hblank, Hhdr.
  destruct (List.length (samples st) <? 10)%nat; [| split; reflexivity].
  destruct (negb (String.eqb (summarizeLsofLine (strings_TrimSpace line)) ""));
    split; reflexivity.
Qed.

Lemma fdScan_count_entries :
  forall (lines : list string) (st : fdScan) (c0 : Z),
    skipHdr st = false ->
    count st = int64 c0 ->
    count (fold_left fdScanLine lines st)
    = int64 (c0 + Z.of_nat (List.length (nonBlank lines))).
Proof.
  induction lines as [| line lines IH]; intros st c0 Hhdr Hcount.
  - cbn. now rewrite Z.add_0_r.
  - cbn [fold_left]. unfold nonBlank in *. cbn [map filter].
    destruct (String.eqb (strings_TrimSpace line) "") eqn:Hblank; cbn [negb].
    + unfold fdScanLine at 2. rewrite Hblank. now apply IH.
    + destruct (fdScanLine_count st line Hblank Hhdr) as [Hc Hh].
      rewrite (IH _ (c0 + 1) Hh).
      * cbn [List.length]. f_equal. lia.
      * rewrite Hc, Hcount. apply int64_succ.
Qed.

Lemma fdScan_count_header :
  forall (lines : list string) (st : fdScan) (c0 : Z),
    skipHdr st = true ->
    count st = int64 c0 ->
    count (fold_left fdScanLine lines st)
    = int64 (c0 + Z.of_nat (List.length (tl (nonBlank lines)))).
Proof.
  induction lines as [| line lines IH]; intros st c0 Hhdr Hcount.
  - cbn. now rewrite Z.add_0_r.
  - cbn [fold_left]. unfold nonBlank in *. cbn [map filter].
    unfold fdScanLine at 2.
    destruct (String.eqb (strings_TrimSpace line) "") eqn:Hblank; cbn [negb].
    + now apply IH.
    + rewrite Hhdr. cbn [tl].
      now apply fdScan_count_entries.
Qed.

End LsofCount.

(** X3: the descriptor count is the number of non-blank lines after the
    header (in [int]), whether or not they have nine fields; while it is
    below 2^63 it is that number, and no fewer than the samples. *)
Theorem collectDarwinFDs_count :
  forall (R : Runtime) (host : Host) (pid : Z) (out : string),
    exec_Output host "lsof" ["-nP"; "-p"; strconv_Itoa pid] = (out, None) ->
    let entries := Z.of_nat (List.length (lsofEntries out)) in
    let '(fdCount, fileDescs, _) := collectDarwinFDs host pid in
    fdCount = int64 entries
    /\ (entries < 2 ^ 63 ->
        fdCount = entries /\ Z.of_nat (List.length fileDescs) <= fdCount).
Proof.
  intros R host pid out Hout entries. unfold collectDarwinFDs.
  rewrite Hout.
  assert (Hcount : count (fold_left fdScanLine (strings_Lines out) fdScanStart)
                   = int64 entries).
  { rewrite (fdScan_count_header _ fdScanStart 0); [reflexivity | reflexivity |].
    reflexivity. }
  split; [exact Hcount |].
  intros Hsmall. rewrite Hcount.
  rewrite int64_small by (unfold entries in *; lia).
  split; [reflexivity |].
  rewrite (fdScan_header (strings_Lines out) fdScanStart) by reflexivity.
  unfold entries, lsofEntries. apply inj_le.
  rewrite length_firstn.
  etransitivity; [apply Nat.le_min_r |].
  rewrite length_map. apply filter_length_le.
Qed.

Lemma collectDarwinFDs_count_witness :
  let entries :=
    Z.of_nat (List.length (lsofEntries (R := AsciiRuntime) lsofListing)) in
  let '(fdCount, fileDescs, _) :=
    collectDarwinFDs (R := AsciiRuntime) (toolsPrinting "" lsofListing) 12 in
  fdCount = int64 entries
  /\ (entries < 2 ^ 63 ->
      fdCount = entries /\ Z.of_nat (List.length fileDescs) <= fdCount).
Proof.
  apply (collectDarwinFDs_count AsciiRuntime (toolsPrinting "" lsofListing) 12
           lsofListing).
  reflexivity.
Defined.

Section FileLimitFacts.
Context {R : Runtime}.
Variable host : Host.

Lemma parseLaunchctlLimitLine_range :
  forall (line : string) (limit : Z),
    parseLaunchctlLimitLine line = (limit, true) -> 0 <= limit < 2 ^ 64.
Proof.
  intros line limit H. unfold parseLaunchctlLimitLine in H.
  destruct (List.length (strings_Fields line) <? 2)%nat; [discriminate |].
  destruct (strings_EqualFold (nth 1 (strings_Fields line) "") "unlimited").
  - injection H as <-. lia.
  - destruct (strconv_ParseUint (nth 1 (strings_Fields line) "")) as [n |] eqn:Hn;
      [| discriminate].
    injection H as <-. now apply strconv_ParseUint_range in Hn.
Qed.

Lemma firstMaxfiles_range :
  forall (lines : list string) (limit : Z),
    firstMaxfiles lines = Some limit -> 0 <= limit < 2 ^ 64.
Proof.
  induction lines as [| line lines IH]; intros limit H; cbn in H.
  - discriminate.
  - destruct (strings_Contains line "maxfiles"); [| now apply IH].
    destruct (parseLaunchctlLimitLine line) as [l [|]] eqn:Hparse.
    + injection H as <-. now apply (parseLaunchctlLimitLine_range line).
    + now apply IH.
Qed.

Lemma ulimitFallback_range : 0 <= ulimitFallback host < 2 ^ 64.
Proof.
  unfold ulimitFallback.
  destruct (exec_Output host "sh" ["-c"; "ulimit -n"]) as [data [e |]]; [lia |].
  destruct (strconv_ParseUint (strings_TrimSpace data)) as [n |] eqn:Hn; [| lia].
  now apply strconv_ParseUint_range in Hn.
Qed.


End FileLimitFacts.

(** X4: the descriptor ceiling is within [uint64] whatever the tools
    print, and it is 0 when neither [launchctl] nor the shell can be
    run. *)
Theorem detectDarwinFileLimit_range :
  forall (R : Runtime) (host : Host),
    0 <= detectDarwinFileLimit host < 2 ^ 64
    /\ match exec_Output host "launchctl" ["limit"; "maxfiles"],
             exec_Output host "sh" ["-c"; "ulimit -n"] with
       | (_, Some _), (_, Some _) => detectDarwinFileLimit host = 0
       | _, _ => True
       end.
Proof.
  intros R host. unfold detectDarwinFileLimit.
  pose proof (ulimitFallback_range host) as Hfallback.
  destruct (exec_Output host "launchctl" ["limit"; "maxfiles"])
    as [data [e |]].
  - split; [exact Hfallback |]. unfold ulimitFallback.
    destruct (exec_Output host "sh" ["-c"; "ulimit -n"]) as [d [e' |]];
      [reflexivity | exact I].
  - split; [| exact I].
    destruct (firstMaxfiles (strings_Lines data)) as [limit |] eqn:Hfirst;
      [now apply (firstMaxfiles_range (strings_Lines data)) | exact Hfallback].
Qed.



Section ChildrenFacts.
Context {R : Runtime}.

Lemma childOfLine_childOn :
  forall (children : list Z) (line : string),
    childOfLine children line = children ++ childOn line.
Proof.
  intros children line. unfold childOfLine, childOn.
  destruct (String.eqb_spec (strings_TrimSpace line) "") as [-> | _].
  - cbn. now rewrite app_nil_r.
  - destruct (strconv_Atoi (strings_TrimSpace line));
      [reflexivity | now rewrite app_nil_r].
Qed.

Lemma children_fold :
  forall (lines : list string) (children : list Z),
    fold_left childOfLine lines children
    = children ++ flat_map childOn lines.
Proof.
  induction lines as [| line lines IH]; intros children; cbn.
  - now rewrite app_nil_r.
  - rewrite IH, childOfLine_childOn. now rewrite <- app_assoc.
Qed.

Lemma childOn_range :
  forall (lines : list string),
    Forall (fun c => - 2 ^ 63 <= c < 2 ^ 63) (flat_map childOn lines).
Proof.
  induction lines as [| line lines IH]; cbn.
  - constructor.
  - apply Forall_app. split; [| exact IH].
    unfold childOn.
    destruct (strconv_Atoi (strings_TrimSpace line)) as [c |] eqn:Hc;
      constructor; [now apply strconv_Atoi_range in Hc | constructor].
Qed.

End ChildrenFacts.

(** X6: the children are the numbers on the lines of [pgrep], in order,
    each within [int]; a line that is no number is passed over, and any
    failure of [pgrep] gives no children. *)
Theorem listDarwinChildren_lines :
  forall (R : Runtime) (host : Host) (pid : Z),
    listDarwinChildren host pid
    = match exec_CombinedOutput host "pgrep" ["-P"; strconv_Itoa pid] with
      | (_, Some _) => []
      | (out, None) => flat_map childOn (strings_Lines out)
      end
    /\ Forall (fun c => - 2 ^ 63 <= c < 2 ^ 63) (listDarwinChildren host pid).
Proof.
  intros R host pid. unfold listDarwinChildren.
  destruct (exec_CombinedOutput host "pgrep" ["-P"; strconv_Itoa pid])
    as [out [e |]].
  - split; [reflexivity | constructor].
  - rewrite children_fold. cbn [app].
    split; [reflexivity | apply childOn_range].
Qed.

(** ** Container detection, beyond the claims *)

(** X7: the container field is empty exactly when the command line is
    empty or holds no engine marker. *)
Theorem detectContainer_absent :
  forall (R : Runtime) (findLongHexID : string -> string)
         (resolveContainerName : string -> string -> string)
         (cmdline : string),
    detectContainer findLongHexID resolveContainerName cmdline = Returned ""
    <-> cmdline = "" \/ matchMarker (strings_ToLower cmdline) = MNone.
Proof.
  intros R findLongHexID resolveContainerName cmdline.
  unfold detectContainer, named.
  destruct (String.eqb_spec cmdline "") as [-> | Hcmd]; [tauto |].
  destruct (matchMarker (strings_ToLower cmdline));
    repeat match goal with
           | |- context [if ?b then _ else _] => destruct b
           end;
    cbn; split; intros H; try tauto; try discriminate;
    destruct H as [H | H]; congruence.
Qed.

(** X8: [detectContainer] panics in one case only: a [kubepods] command
    line whose identifier is shorter than 12 bytes and has no resolved
    name. *)
Theorem detectContainer_panics :
  forall (R : Runtime) (findLongHexID : string -> string)
         (resolveContainerName : string -> string -> string)
         (cmdline : string),
    detectContainer findLongHexID resolveContainerName cmdline = Panicked
    <-> cmdline <> ""
        /\ matchMarker (strings_ToLower cmdline) = MKubepods
        /\ findLongHexID cmdline <> ""
        /\ resolveContainerName (findLongHexID cmdline) "crictl" = ""
        /\ (String.length (findLongHexID cmdline) < 12)%nat.
Proof.
  intros R findLongHexID resolveContainerName cmdline.
  unfold detectContainer, named.
  destruct (String.eqb_spec cmdline "") as [-> | Hcmd];
    [split; [discriminate | tauto] |].
  destruct (matchMarker (strings_ToLower cmdline));
    try (split; [repeat match goal with
                        | |- context [if ?b then _ else _] => destruct b
                        end; discriminate
                | intros (_ & H & _); discriminate]).
  destruct (String.eqb_spec (findLongHexID cmdline) "") as [Hid | Hid];
    [split; [discriminate | tauto] |].
  destruct (String.eqb_spec (resolveContainerName (findLongHexID cmdline) "crictl") "")
    as [Hname | Hname]; cbn [negb];
    [| split; [discriminate | tauto]].
  destruct (Nat.ltb_spec (String.length (findLongHexID cmdline)) 12);
    split; try discriminate; try tauto.
  intros (_ & _ & _ & _ & Hlt). lia.
Qed.

(** ** Git context, beyond the claims *)

Lemma append_String_assoc :
  forall (a : string) (c : ascii) (b : string),
    ((a ++ String c "") ++ b)%string = (a ++ String c b)%string.
Proof.
  induction a as [| x a IH]; intros c b; cbn.
  - reflexivity.
  - now rewrite IH.
Qed.

Lemma string_append_assoc :
  forall a b c : string, ((a ++ b) ++ c)%string = (a ++ (b ++ c))%string.
Proof.
  induction a as [| x a IH]; intros b c; cbn.
  - reflexivity.
  - now rewrite IH.
Qed.

Lemma append_empty_r : forall a : string, (a ++ "")%string = a.
Proof.
  induction a as [| x a IH]; cbn; [reflexivity | now rewrite IH].
Qed.

Lemma hasByte_append :
  forall (c : ascii) (a b : string),
    hasByte c (a ++ b)%string = hasByte c a || hasByte c b.
Proof.
  intros c a b. induction a as [| x a IH]; cbn.
  - reflexivity.
  - rewrite IH. now rewrite orb_assoc.
Qed.

Lemma splitByte_nonempty :
  forall (sep : ascii) (s cur : string), splitByte sep s cur <> [].
Proof.
  intros sep s. induction s as [| c s IH]; intros cur; cbn.
  - discriminate.
  - destruct (Ascii.eqb c sep); [discriminate | apply IH].
Qed.

Lemma last_cons_nonempty :
  forall (A : Type) (x : A) (l : list A) (d : A),
    l <> [] -> last (x :: l) d = last l d.
Proof.
  intros A x l d Hl. destruct l; [contradiction | reflexivity].
Qed.

Lemma nth_last :
  forall (A : Type) (l : list A) (d : A),
    nth (List.length l - 1) l d = last l d.
Proof.
  intros A l d. induction l as [| x l IH]; [reflexivity |].
  destruct l as [| y l]; [reflexivity |].
  change (last (x :: y :: l) d) with (last (y :: l) d). rewrite <- IH.
  cbn [List.length].
  replace (S (S (List.length l)) - 1)%nat with (S (List.length l)) by lia.
  replace (S (List.length l) - 1)%nat with (List.length l) by lia.
  reflexivity.
Qed.

(** The last piece of a split is what follows the last separator. *)
Lemma splitByte_last :
  forall (sep : ascii) (s cur : string),
    exists pre : string,
      (cur ++ s)%string = (pre ++ last (splitByte sep s cur) "")%string
      /\ (pre = ""%string
          \/ exists pre', pre = (pre' ++ String sep "")%string).
Proof.
  intros sep s. induction s as [| c s IH]; intros cur.
  - exists ""%string. cbn. rewrite append_empty_r. auto.
  - cbn [splitByte]. destruct (Ascii.eqb_spec c sep) as [-> | Hc].
    + rewrite last_cons_nonempty by apply splitByte_nonempty.
      destruct (IH ""%string) as (pre & Heq & Hpre). cbn in Heq.
      exists (cur ++ String sep pre)%string. split.
      * rewrite Heq at 1. now rewrite string_append_assoc.
      * right. destruct Hpre as [-> | (pre' & ->)].
        -- now exists cur.
        -- exists (cur ++ String sep pre')%string.
           now rewrite string_append_assoc.
    + destruct (IH (cur ++ String c "")%string) as (pre & Heq & Hpre).
      exists pre. rewrite <- Heq. split; [| exact Hpre].
      now rewrite append_String_assoc.
Qed.

Lemma splitByte_last_clean :
  forall (sep : ascii) (s cur : string),
    hasByte sep cur = false ->
    hasByte sep (last (splitByte sep s cur) "") = false.
Proof.
  intros sep s. induction s as [| c s IH]; intros cur Hcur.
  - exact Hcur.
  - cbn [splitByte]. destruct (Ascii.eqb c sep) eqn:Hc.
    + rewrite last_cons_nonempty by apply splitByte_nonempty.
      now apply IH.
    + apply IH. rewrite hasByte_append, Hcur. cbn. now rewrite Hc.
Qed.

Lemma substring_all :
  forall s : string, substring 0 (String.length s) s = s.
Proof.
  induction s as [| c s IH]; cbn; [reflexivity | now rewrite IH].
Qed.

Section BranchFacts.
Context {R : Runtime}.
Variable fs : FileSystem.

Lemma readBranch_of_ref :
  forall (gitDir head ref : string),
    os_ReadFile fs (filepath_Join gitDir "HEAD") = Some head ->
    strings_TrimSpace head = ("ref: " ++ ref)%string ->
    readBranch fs gitDir = last (strings_Split ref "/") "".
Proof.
  intros gitDir head ref Hread Htrim. unfold readBranch.
  rewrite Hread, Htrim.
  assert (Hpre : prefix "ref: " ("ref: " ++ ref) = true)
    by (cbn; destruct ref; reflexivity).
  unfold strings_HasPrefix. rewrite Hpre.
  assert (Hcut : strings_TrimPrefix ("ref: " ++ ref) "ref: " = ref).
  { unfold strings_TrimPrefix. rewrite Hpre.
    cbn [String.length append Nat.sub substring].
    rewrite Nat.sub_0_r. apply substring_all. }
  rewrite Hcut, nth_last.
  destruct (Nat.ltb_spec 0 (List.length (strings_Split ref "/"))) as [_ | Hlen];
    [reflexivity |].
  pose proof (splitByte_nonempty "/" ref "") as Hne. unfold strings_Split in *.
  destruct (splitByte "/" ref ""); [contradiction | cbn in Hlen; lia].
Qed.

End BranchFacts.

(** X9: the repository reported is the nearest directory, at most four
    levels up, that holds a [.git] directory, under its base name, and
    the branch of a [HEAD] reading [ref: <ref>] is what follows the last
    slash of the ref: it holds no slash ([feature/foo] is reported as
    [foo]). *)
Theorem detectGitInfo_nearest_repository :
  forall (R : Runtime) (fs : FileSystem) (cwd : string) (k : nat)
         (head ref : string),
    cwd <> ""%string ->
    (k < 5)%nat ->
    (forall i : nat, (i < k)%nat -> hasGitDir fs (ancestor i cwd) = false) ->
    hasGitDir fs (ancestor k cwd) = true ->
    os_ReadFile fs
      (filepath_Join (filepath_Join (ancestor k cwd) ".git") "HEAD")
    = Some head ->
    strings_TrimSpace head = ("ref: " ++ ref)%string ->
    exists branch pre : string,
      detectGitInfo fs cwd = (filepath_Base (ancestor k cwd), branch)
      /\ ref = (pre ++ branch)%string
      /\ hasByte "/" branch = false
      /\ (pre = ""%string \/ exists pre', pre = (pre' ++ "/")%string).
Proof.
  intros R fs cwd k head ref Hcwd Hk Hbelow Hhit Hread Htrim.
  destruct (splitByte_last "/" ref "") as (pre & Heq & Hpre). cbn in Heq.
  exists (last (strings_Split ref "/") ""), pre.
  split; [| split; [exact Heq | split; [| exact Hpre]]].
  - unfold detectGitInfo.
    destruct (String.eqb_spec cwd "") as [Hempty | _]; [contradiction |].
    rewrite (walkUp_first fs k 5 cwd Hk Hbelow Hhit).
    now rewrite (readBranch_of_ref fs _ head ref).
  - now apply splitByte_last_clean.
Qed.

Lemma detectGitInfo_nearest_repository_witness :
  exists branch pre : string,
    detectGitInfo (R := AsciiRuntime)
      (witrCheckout "ref: refs/heads/release/1.2/hotfix")
      "C:\src\witr\internal\proc\win"
    = ("witr"%string, branch)
    /\ "refs/heads/release/1.2/hotfix"%string = (pre ++ branch)%string
    /\ hasByte "/" branch = false
    /\ (pre = ""%string \/ exists pre', pre = (pre' ++ "/")%string).
Proof.
  apply (detectGitInfo_nearest_repository AsciiRuntime
           (witrCheckout "ref: refs/heads/release/1.2/hotfix")
           "C:\src\witr\internal\proc\win" 3%nat
           "ref: refs/heads/release/1.2/hotfix"
           "refs/heads/release/1.2/hotfix").
  - discriminate.
  - lia.
  - intros i Hi. destruct i as [| [| [| i]]]; [reflexivity .. | lia].
  - reflexivity.
  - reflexivity.
  - reflexivity.
Defined.



(** ** Rules for the runs of a program *)

Section RunRules.
Variable q : event -> bool.

Lemma traceAll_ret :
  forall (A : Type) (a : A), traceAll q (Ret a).
Proof. intros A a tr out [-> _]. reflexivity. Qed.

Lemma traceAll_panic :
  forall A : Type, traceAll q (@Panic A).
Proof. intros A tr out [-> _]. reflexivity. Qed.

Lemma traceAll_call :
  forall (X : Type) (c : syscall X),
    (forall x : X, q (observed c x) = true) -> traceAll q (call c).
Proof.
  intros X c Hq tr out (x & tr' & -> & -> & _). cbn. now rewrite Hq.
Qed.

Lemma traceAll_bind :
  forall (A B : Type) (p : Prog A) (f : A -> Prog B),
    traceAll q p -> (forall a : A, traceAll q (f a)) -> traceAll q (bind p f).
Proof.
  intros A B p f Hp Hf tr out Hrun.
  apply runs_bind in Hrun as [(tr1 & a & tr2 & H1 & H2 & ->) | [H1 _]].
  - rewrite forallb_app, (Hp _ _ H1), (Hf _ _ _ H2). reflexivity.
  - exact (Hp _ _ H1).
Qed.

End RunRules.

Lemma traceAll_weaken :
  forall (A : Type) (q q' : event -> bool) (p : Prog A),
    (forall ev : event, q ev = true -> q' ev = true) ->
    traceAll q p -> traceAll q' p.
Proof.
  intros A q q' p Hqq Hp tr out Hrun. specialize (Hp _ _ Hrun).
  rewrite forallb_forall in *. auto.
Qed.

Lemma resultAll_ret :
  forall (A : Type) (P : A -> Prop) (a : A), P a -> resultAll P (Ret a).
Proof. intros A P a Ha tr a' [_ H]. now injection H as <-. Qed.

Lemma resultAll_panic :
  forall (A : Type) (P : A -> Prop), resultAll P (@Panic A).
Proof. intros A P tr a [_ H]. discriminate. Qed.

Lemma resultAll_bind :
  forall (A B : Type) (P : B -> Prop) (p : Prog A) (f : A -> Prog B),
    (forall a : A, resultAll P (f a)) -> resultAll P (bind p f).
Proof.
  intros A B P p f Hf tr b Hrun.
  apply runs_bind in Hrun as [(tr1 & a & tr2 & _ & H2 & _) | [_ H]].
  - exact (Hf _ _ _ H2).
  - discriminate.
Qed.

Lemma resultAll_defer :
  forall (A : Type) (P : A -> Prop) (handle : Z) (body : Prog A),
    resultAll P body -> resultAll P (defer (call (CloseHandle handle)) body).
Proof.
  intros A P handle body Hbody tr a Hrun.
  apply runs_defer in Hrun as (tr' & Hrun & _). exact (Hbody _ _ Hrun).
Qed.

Ltac trace_all :=
  repeat first
    [ apply traceAll_ret
    | apply traceAll_panic
    | apply traceAll_call; intros ?; cbn; apply Z.eqb_refl
    | apply traceAll_bind; [| intros ?]
    | match goal with
      | |- traceAll _ (let '(_, _) := ?x in _) => destruct x
      | |- traceAll _ (if ?b then _ else _) => destruct b
      end ].

Ltac result_all :=
  repeat first
    [ apply resultAll_panic
    | apply resultAll_bind; intros ?
    | apply resultAll_defer
    | match goal with
      | |- resultAll _ (let '(_, _) := ?x in _) => destruct x
      | |- resultAll _ (if ?b then _ else _) => destruct b
      | |- resultAll _ (match ?o with Some _ => _ | None => _ end) => destruct o
      | |- resultAll _ (match ?l with [] => _ | _ :: _ => _ end) => destruct l
      end ].

Section Win32More.
Context {R : Runtime}.
Variable ptrSize : Z.
Variable pid : Z.

(** The full-access tier works on its handle and nothing else. *)
Lemma getFullProcessInfo_uses :
  forall (handle p : Z) (info : Win32ProcessInfo),
    traceAll (usesHandle handle) (getFullProcessInfo ptrSize handle p info).
Proof.
  intros handle p info.
  unfold getFullProcessInfo, getProcessStartTime, readUnicodeString.
  trace_all.
Qed.

(** A failed full-access tier has touched the start time and the parent
    PID only; a successful one has set an empty environment. *)
Lemma getFullProcessInfo_result :
  forall (handle p : Z) (info : Win32ProcessInfo),
    resultAll
      (fun res : Win32ProcessInfo * option error =>
         match snd res with
         | Some _ =>
             CommandLine (fst res) = CommandLine info
             /\ Exe (fst res) = Exe info
             /\ Cwd (fst res) = Cwd info
             /\ Env (fst res) = Env info
         | None => Env (fst res) = Some []
         end)
      (getFullProcessInfo ptrSize handle p info).
Proof.
  intros handle p info.
  unfold getFullProcessInfo, getProcessStartTime, readUnicodeString.
  result_all; apply resultAll_ret; cbn; auto.
Qed.


Lemma heldAfterAll_app :
  forall (tr1 tr2 : list event) (held : list Z),
    heldAfterAll ptrSize held (tr1 ++ tr2)
    = match heldAfterAll ptrSize held tr1 with
      | Some held' => heldAfterAll ptrSize held' tr2
      | None => None
      end.
Proof.
  induction tr1 as [| ev tr1 IH]; intros tr2 held; cbn [heldAfterAll app].
  - reflexivity.
  - destruct (heldAfter ptrSize held ev); [apply IH | reflexivity].
Qed.

(** Calls on a handle that is held leave the handles as they are. *)
Lemma uses_keeps_handles :
  forall (handle : Z) (held : list Z) (tr : list event),
    holds handle held = true ->
    forallb (usesHandle handle) tr = true ->
    heldAfterAll ptrSize held tr = Some held.
Proof.
  intros handle held tr Hheld. induction tr as [| ev tr IH]; intros Hall.
  - reflexivity.
  - cbn [forallb] in Hall. apply andb_prop in Hall as [Hev Htr].
    cbn [heldAfterAll]. unfold usesHandle in Hev.
    destruct ev; cbn in Hev; try discriminate;
      apply Z.eqb_eq in Hev; subst; cbn; rewrite Hheld; now apply IH.
Qed.

(** They are no opens and no snapshots. *)
Lemma uses_excludes :
  forall (handle : Z) (q : event -> bool) (tr : list event),
    (forall ev : event, usesHandle handle ev = true -> q ev = false) ->
    forallb (usesHandle handle) tr = true ->
    existsb q tr = false.
Proof.
  intros handle q tr Hq. induction tr as [| ev tr IH]; intros Hall.
  - reflexivity.
  - cbn [forallb] in Hall. apply andb_prop in Hall as [Hev Htr].
    cbn [existsb]. rewrite (Hq ev Hev). now apply IH.
Qed.

Lemma usesHandle_not_open :
  forall (handle : Z) (ev : event),
    usesHandle handle ev = true ->
    isOpen ev = false /\ limitedOpen ev = false
    /\ limitedOpenGranted ev = false /\ limitedOpenDenied ev = false
    /\ snapshotMisses ptrSize pid ev = false
    /\ opensToQuery pid ev = true.
Proof.
  intros handle ev Hev. unfold usesHandle in Hev.
  destruct ev; cbn in Hev; try discriminate; cbn; auto 7.
Qed.

(** The snapshot lookup, call by call. *)
Lemma getInfoFromSnapshot_shape :
  forall (tr : list event) (out : outcome (Z * string * option error)),
    runs (getInfoFromSnapshot ptrSize pid) tr out ->
    exists snap entries,
      tr = EvCreateToolhelp32Snapshot TH32CS_SNAPPROCESS 0 snap entries
           :: (if snap =? InvalidHandle ptrSize then []
               else [EvCloseHandle snap])
      /\ if snapshotFinds ptrSize pid snap entries
         then exists pe32,
                findEntry ptrSize pid entries = Some pe32
                /\ out = Returned (int ptrSize (ParentProcessID pe32),
                                   syscall_UTF16ToString (ExeFile pe32), None)
         else exists e, out = Returned (0, ""%string, Some e).
Proof.
  intros tr out Hrun. unfold getInfoFromSnapshot in Hrun.
  cbn [runs bind call] in Hrun.
  destruct Hrun as ([snap entries] & rest & -> & Hrun). cbn [bind] in Hrun.
  exists snap, entries. cbn [observed fst snd]. unfold snapshotFinds.
  destruct (snap =? InvalidHandle ptrSize) eqn:Hsnap; cbn [negb andb].
  - cbn in Hrun. destruct Hrun as [-> ->]. eauto.
  - apply runs_defer in Hrun as (tr' & Hrun & ->).
    destruct entries as [| pe32 entries'].
    + cbn in Hrun. destruct Hrun as [-> ->]. cbn. eauto.
    + destruct (findEntry ptrSize pid (pe32 :: entries')) as [found |];
        cbn in Hrun; destruct Hrun as [-> ->]; cbn; eauto.
Qed.

(** The second step, call by call. *)
Lemma limitedOrSnapshot_shape :
  forall (info : Win32ProcessInfo) (tr : list event)
         (out : outcome (Win32ProcessInfo * option error)),
    runs (limitedOrSnapshot ptrSize pid info) tr out ->
    exists handle err snap entries,
      let release :=
        if snap =? InvalidHandle ptrSize then [] else [EvCloseHandle snap] in
      match err with
      | None =>
          exists ret creation ret' written info',
            tr = EvOpenProcess PROCESS_QUERY_LIMITED_INFORMATION false
                   (uint32 pid) handle None
                 :: EvGetProcessTimes handle ret creation
                 :: EvQueryFullProcessImageNameW handle ret' written
                 :: EvCreateToolhelp32Snapshot TH32CS_SNAPPROCESS 0 snap entries
                 :: release ++ [EvCloseHandle handle]
            /\ out = Returned (info', None)
            /\ Cwd info' = ""%string
            /\ Env info' = Some []
            /\ CommandLine info'
               = (if String.eqb (Exe info') "" then CommandLine info
                  else filepath_Base (Exe info'))
      | Some e =>
          tr = EvOpenProcess PROCESS_QUERY_LIMITED_INFORMATION false
                 (uint32 pid) handle (Some e)
               :: EvCreateToolhelp32Snapshot TH32CS_SNAPPROCESS 0 snap entries
               :: release
          /\ if snapshotFinds ptrSize pid snap entries
             then exists info',
                    out = Returned (info', None)
                    /\ CommandLine info' = Exe info'
                    /\ Cwd info' = Cwd info /\ Env info' = Env info
             else out = Returned (info, Some e)
      end.
Proof.
  intros info tr out Hrun. unfold limitedOrSnapshot in Hrun.
  cbn [runs bind call] in Hrun.
  destruct Hrun as ([handle [e |]] & tr' & -> & Hrun); cbn [bind] in Hrun.
  - apply runs_bind in Hrun as [(tr1 & r & tr2 & H1 & Hrun & ->) | [H1 ->]];
      apply getInfoFromSnapshot_shape in H1 as (snap & entries & -> & Hfound);
      exists handle, (Some e), snap, entries; cbn [observed fst snd];
      destruct (snapshotFinds ptrSize pid snap entries);
      try (destruct Hfound as (? & _ & Hr); discriminate);
      try (destruct Hfound as (? & Hr); discriminate).
    + destruct Hfound as (pe32 & _ & Hr). injection Hr as ->.
      cbn in Hrun. destruct Hrun as [-> ->]. rewrite app_nil_r.
      split; [reflexivity |]. eexists. repeat split.
    + destruct Hfound as (e' & Hr). injection Hr as ->.
      cbn in Hrun. destruct Hrun as [-> ->]. rewrite app_nil_r.
      split; reflexivity.
  - apply runs_defer in Hrun as (tr0 & Hrun & ->).
    apply runs_bind in Hrun as [(tr1 & t & tr2 & H1 & Hrun & ->) | [H1 _]];
      apply getProcessStartTime_runs in H1 as (ret0 & creation & t' & -> & Ht);
      [clear Ht | discriminate].
    unfold getProcessImageName in Hrun. cbn [runs bind call] in Hrun.
    destruct Hrun as ([ret1 written] & tr3 & -> & Hrun). cbn [bind] in Hrun.
    assert (Himg : exists exePath,
               (if ret1 =? 0 then Ret ""%string
                else Ret (syscall_UTF16ToString written)) = Ret exePath)
      by (destruct (ret1 =? 0); eauto).
    destruct Himg as (exePath & Himg). rewrite Himg in Hrun. cbn [bind] in Hrun.
    apply runs_bind in Hrun as [(tr4 & r & tr5 & H4 & Hrun & ->) | [H4 _]];
      apply getInfoFromSnapshot_shape in H4 as (snap & entries & -> & Hfound).
    + exists handle, None, snap, entries. cbn zeta.
      destruct r as [[ppid exe] snapErr]. cbn in Hrun. destruct Hrun as [-> ->].
      do 5 eexists. cbn [observed fst snd app].
      split; [rewrite app_nil_r; reflexivity |].
      split; [reflexivity |]. cbn.
      repeat split. destruct (String.eqb exePath ""); reflexivity.
    + destruct (snapshotFinds ptrSize pid snap entries);
        [destruct Hfound as (? & _ & Hr) | destruct Hfound as (? & Hr)];
        discriminate.
Qed.

(** [GetProcessDetailedInfo], tier by tier: the full-access tier
    resolves the run, or the second step runs on an [info] that holds
    neither a command line, an image, a directory nor an environment. *)
Lemma GetProcessDetailedInfo_shape :
  forall (tr : list event) (out : outcome (Win32ProcessInfo * option error)),
    runs (GetProcessDetailedInfo ptrSize pid) tr out ->
    exists handle err full,
      (err = None \/ full = [])
      /\ forallb (usesHandle handle) full = true
      /\ let release :=
           match err with
           | None => [EvCloseHandle handle]
           | Some _ => []
           end in
         ((err = None
           /\ tr = EvOpenProcess fullAccessMask false (uint32 pid) handle err
                   :: full ++ release
           /\ (out = Panicked
               \/ exists info, out = Returned (info, None)
                               /\ Env info = Some []))
          \/ exists info second,
               tr = EvOpenProcess fullAccessMask false (uint32 pid) handle err
                    :: full ++ second ++ release
               /\ runs (limitedOrSnapshot ptrSize pid info) second out
               /\ CommandLine info = ""%string /\ Exe info = ""%string
               /\ Cwd info = ""%string /\ Env info = None).
Proof.
  intros tr out Hrun. unfold GetProcessDetailedInfo in Hrun.
  cbn [runs bind call] in Hrun.
  destruct Hrun as ([handle [e |]] & tr' & -> & Hrun); cbn [bind] in Hrun;
    cbn [observed fst snd].
  - exists handle, (Some e), []. split; [now right |]. split; [reflexivity |].
    right. exists zeroWin32ProcessInfo, tr'. cbn [app].
    rewrite app_nil_r. repeat split; auto.
  - apply runs_defer in Hrun as (tr0 & Hrun & ->).
    apply runs_bind in Hrun as [(tr1 & r & tr2 & H1 & Hrun & ->) | [H1 ->]].
    + pose proof (getFullProcessInfo_uses handle pid zeroWin32ProcessInfo _ _ H1)
        as Huses.
      pose proof (getFullProcessInfo_result handle pid zeroWin32ProcessInfo _ _ H1)
        as Hres.
      destruct r as [info [err |]]; cbn [fst snd] in Hres.
      * destruct Hres as (Hc & He & Hw & Hv). cbn in Hc, He, Hw, Hv.
        exists handle, None, tr1. split; [now left |]. split; [exact Huses |].
        right. exists info, tr2. rewrite <- app_assoc. repeat split; auto.
      * cbn in Hrun. destruct Hrun as [-> ->].
        exists handle, None, tr1. split; [now left |]. split; [exact Huses |].
        left. rewrite app_nil_r. repeat split; eauto.
    + pose proof (getFullProcessInfo_uses handle pid zeroWin32ProcessInfo _ _ H1)
        as Huses.
      exists handle, None, tr0. split; [now left |]. split; [exact Huses |].
      left. repeat split; auto.
Qed.


Lemma holds_head :
  forall (handle : Z) (held : list Z), holds handle (handle :: held) = true.
Proof. intros handle held. cbn. now rewrite Z.eqb_refl. Qed.

(** The second step releases what it acquires. *)
Lemma limitedOrSnapshot_handles :
  forall (info : Win32ProcessInfo) (tr : list event)
         (out : outcome (Win32ProcessInfo * option error)) (held : list Z),
    runs (limitedOrSnapshot ptrSize pid info) tr out ->
    heldAfterAll ptrSize held tr = Some held.
Proof.
  intros info tr out held Hrun.
  apply limitedOrSnapshot_shape in Hrun
    as (handle & [e |] & snap & entries & Hshape); cbn zeta in Hshape.
  - destruct Hshape as [-> _]. cbn [heldAfterAll heldAfter].
    destruct (snap =? InvalidHandle ptrSize); cbn; [reflexivity |].
    now rewrite Z.eqb_refl.
  - destruct Hshape as (ret & creation & ret' & written & info' & -> & _).
    cbn [heldAfterAll heldAfter handleUsed]. rewrite holds_head.
    destruct (snap =? InvalidHandle ptrSize); cbn;
      rewrite ?Z.eqb_refl; cbn; rewrite ?Z.eqb_refl; reflexivity.
Qed.

Lemma limitedOrSnapshot_opens :
  forall (info : Win32ProcessInfo) (tr : list event)
         (out : outcome (Win32ProcessInfo * option error)),
    runs (limitedOrSnapshot ptrSize pid info) tr out ->
    forallb (opensToQuery pid) tr = true
    /\ List.length (filter isOpen tr) = 1%nat.
Proof.
  intros info tr out Hrun.
  apply limitedOrSnapshot_shape in Hrun
    as (handle & [e |] & snap & entries & Hshape); cbn zeta in Hshape.
  - destruct Hshape as [-> _].
    destruct (snap =? InvalidHandle ptrSize); cbn; rewrite Z.eqb_refl; auto.
  - destruct Hshape as (ret & creation & ret' & written & info' & -> & _).
    destruct (snap =? InvalidHandle ptrSize); cbn; rewrite Z.eqb_refl; auto.
Qed.

Lemma filter_none :
  forall (q : event -> bool) (tr : list event),
    existsb q tr = false -> filter q tr = [].
Proof.
  intros q tr. induction tr as [| ev tr IH]; intros H; cbn in *.
  - reflexivity.
  - apply orb_false_elim in H as [Hev Htr]. rewrite Hev. now apply IH.
Qed.

End Win32More.

(** X10: every run releases the handles it acquires, each once and the most
    recent first, also when it panics; it releases no handle it does not
    hold and makes no call on a handle that is not held. *)
Theorem GetProcessDetailedInfo_releases_handles :
  forall (R : Runtime) (ptrSize pid : Z) (tr : list event)
         (out : outcome (Win32ProcessInfo * option error)),
    runs (GetProcessDetailedInfo ptrSize pid) tr out ->
    heldAfterAll ptrSize [] tr = Some [].
Proof.
  intros R ptrSize pid tr out Hrun.
  apply GetProcessDetailedInfo_shape in Hrun
    as (handle & err & full & Hfull & Huses & Hcases). cbn zeta in Hcases.
  destruct Hcases as [(-> & -> & _) | (info & second & -> & Hsecond & _)].
  - cbn [heldAfterAll heldAfter]. rewrite heldAfterAll_app.
    rewrite (uses_keeps_handles ptrSize handle [handle] full (holds_head _ _) Huses).
    cbn. now rewrite Z.eqb_refl.
  - destruct err as [e |].
    + destruct Hfull as [Hfull | ->]; [discriminate |].
      cbn [heldAfterAll heldAfter app]. rewrite app_nil_r.
      exact (limitedOrSnapshot_handles ptrSize pid info second out [] Hsecond).
    + cbn [heldAfterAll heldAfter]. rewrite heldAfterAll_app.
      rewrite (uses_keeps_handles ptrSize handle [handle] full (holds_head _ _) Huses).
      rewrite heldAfterAll_app.
      rewrite (limitedOrSnapshot_handles ptrSize pid info second out [handle] Hsecond).
      cbn. now rewrite Z.eqb_refl.
Qed.

Lemma GetProcessDetailedInfo_releases_handles_witness :
  heldAfterAll 8 []
    (fst (exec controlBlockZero [] (GetProcessDetailedInfo (R := AsciiRuntime) 8 42)))
  = Some [].
Proof.
  apply (GetProcessDetailedInfo_releases_handles AsciiRuntime 8 42 _
           (snd (exec controlBlockZero []
                   (GetProcessDetailedInfo (R := AsciiRuntime) 8 42)))).
  apply exec_runs.
Defined.

(** X11: a run opens the process at most twice, always the process
    [uint32(pid)], without handle inheritance, and with no other rights
    than query-and-read or limited query. *)
Theorem GetProcessDetailedInfo_opens_to_query :
  forall (R : Runtime) (ptrSize pid : Z) (tr : list event)
         (out : outcome (Win32ProcessInfo * option error)),
    runs (GetProcessDetailedInfo ptrSize pid) tr out ->
    forallb (opensToQuery pid) tr = true
    /\ (List.length (filter isOpen tr) <= 2)%nat.
Proof.
  intros R ptrSize pid tr out Hrun.
  apply GetProcessDetailedInfo_shape in Hrun
    as (handle & err & full & Hfull & Huses & Hcases). cbn zeta in Hcases.
  assert (Hquery : forallb (opensToQuery pid) full = true).
  { rewrite forallb_forall in *. intros ev Hev.
    now apply (usesHandle_not_open ptrSize pid handle ev (Huses ev Hev)). }
  assert (Hnone : filter isOpen full = []).
  { apply filter_none. apply (uses_excludes handle); [| exact Huses].
    intros ev Hev. now apply (usesHandle_not_open ptrSize pid handle ev Hev). }
  assert (Hrelease : forall e : option error,
             forallb (opensToQuery pid)
               match e with None => [EvCloseHandle handle] | Some _ => [] end
             = true
             /\ filter isOpen
                  match e with None => [EvCloseHandle handle] | Some _ => [] end
                = [])
    by (intros [e |]; split; reflexivity).
  destruct Hcases as [(-> & -> & _) | (info & second & -> & Hsecond & _)].
  - cbn [forallb filter isOpen opensToQuery].
    rewrite forallb_app, filter_app, Hquery, Hnone. cbn.
    rewrite Z.eqb_refl. split; [reflexivity | lia].
  - destruct (limitedOrSnapshot_opens ptrSize pid info second out Hsecond)
      as [Hq2 Hn2].
    destruct (Hrelease err) as [Hq3 Hn3].
    cbn [forallb filter isOpen opensToQuery].
    rewrite !forallb_app, !filter_app, Hquery, Hnone, Hq2, Hq3, Hn3.
    cbn. rewrite Z.eqb_refl, app_nil_r. cbn. split; [reflexivity | lia].
Qed.

Lemma GetProcessDetailedInfo_opens_to_query_witness :
  forallb (opensToQuery 42)
    (fst (exec controlBlockZero [] (GetProcessDetailedInfo (R := AsciiRuntime) 8 42)))
  = true
  /\ (List.length
        (filter isOpen
           (fst (exec controlBlockZero []
                   (GetProcessDetailedInfo (R := AsciiRuntime) 8 42)))) <= 2)%nat.
Proof.
  apply (GetProcessDetailedInfo_opens_to_query AsciiRuntime 8 42 _
           (snd (exec controlBlockZero []
                   (GetProcessDetailedInfo (R := AsciiRuntime) 8 42)))).
  apply exec_runs.
Defined.

Section FallbackFacts.
Context {R : Runtime}.
Variable ptrSize : Z.
Variable pid : Z.

(** What the second step gives, on an [info] as a failed or skipped
    full-access tier leaves it. *)
Lemma limitedOrSnapshot_result :
  forall (info : Win32ProcessInfo) (tr : list event)
         (out : outcome (Win32ProcessInfo * option error)),
    CommandLine info = ""%string -> Exe info = ""%string ->
    Cwd info = ""%string -> Env info = None ->
    runs (limitedOrSnapshot ptrSize pid info) tr out ->
    existsb limitedOpen tr = true
    /\ existsb limitedOpenDenied tr = negb (existsb limitedOpenGranted tr)
    /\ exists res err,
         out = Returned (res, err)
         /\ Cwd res = ""%string
         /\ if existsb limitedOpenGranted tr then
              err = None /\ Env res = Some []
              /\ CommandLine res
                 = (if String.eqb (Exe res) "" then ""%string
                    else filepath_Base (Exe res))
            else
              Env res = None
              /\ match err with
                 | None =>
                     CommandLine res = Exe res
                     /\ existsb (snapshotMisses ptrSize pid) tr = false
                 | Some e =>
                     (exists handle,
                         In (EvOpenProcess PROCESS_QUERY_LIMITED_INFORMATION
                               false (uint32 pid) handle (Some e)) tr)
                     /\ existsb (snapshotMisses ptrSize pid) tr = true
                     /\ CommandLine res = ""%string /\ Exe res = ""%string
                 end.
Proof.
  intros info tr out Hc He Hw Hv Hrun.
  apply limitedOrSnapshot_shape in Hrun
    as (handle & [e |] & snap & entries & Hshape); cbn zeta in Hshape.
  - destruct Hshape as [-> Hfound].
    assert (Hsnap : existsb (snapshotMisses ptrSize pid)
                      (if snap =? InvalidHandle ptrSize then []
                       else [EvCloseHandle snap]) = false)
      by (destruct (snap =? InvalidHandle ptrSize); reflexivity).
    assert (Hgr : existsb limitedOpenGranted
                    (if snap =? InvalidHandle ptrSize then []
                     else [EvCloseHandle snap]) = false)
      by (destruct (snap =? InvalidHandle ptrSize); reflexivity).
    assert (Hdn : existsb limitedOpenDenied
                    (if snap =? InvalidHandle ptrSize then []
                     else [EvCloseHandle snap]) = false)
      by (destruct (snap =? InvalidHandle ptrSize); reflexivity).
    cbn [existsb limitedOpen limitedOpenGranted limitedOpenDenied
         snapshotMisses orb].
    rewrite Hsnap, Hgr, Hdn, Z.eqb_refl. cbn [orb negb].
    split; [reflexivity |]. split; [reflexivity |].
    destruct (snapshotFinds ptrSize pid snap entries).
    + destruct Hfound as (info' & -> & Hcmd & Hcwd & Henv).
      exists info', None. rewrite Hcwd, Henv. cbn. auto.
    + subst out. exists info, (Some e). cbn.
      repeat split; eauto.
  - destruct Hshape
      as (ret & creation & ret' & written & info' & -> & -> & Hcwd & Henv & Hcmd).
    cbn [existsb limitedOpen limitedOpenGranted limitedOpenDenied orb].
    rewrite Z.eqb_refl. cbn [orb negb].
    split; [reflexivity |]. split.
    + destruct (snap =? InvalidHandle ptrSize); reflexivity.
    + exists info', None. rewrite Hc in Hcmd. auto.
Qed.

(** A run that makes the limited-access open. *)
Lemma GetProcessDetailedInfo_fallback :
  forall (tr : list event) (out : outcome (Win32ProcessInfo * option error)),
    runs (GetProcessDetailedInfo ptrSize pid) tr out ->
    if existsb limitedOpen tr then
      existsb limitedOpenDenied tr = negb (existsb limitedOpenGranted tr)
      /\ exists res err,
           out = Returned (res, err)
           /\ Cwd res = ""%string
           /\ if existsb limitedOpenGranted tr then
                err = None /\ Env res = Some []
                /\ CommandLine res
                   = (if String.eqb (Exe res) "" then ""%string
                      else filepath_Base (Exe res))
              else
                Env res = None
                /\ match err with
                   | None =>
                       CommandLine res = Exe res
                       /\ existsb (snapshotMisses ptrSize pid) tr = false
                   | Some e =>
                       (exists handle,
                           In (EvOpenProcess PROCESS_QUERY_LIMITED_INFORMATION
                                 false (uint32 pid) handle (Some e)) tr)
                       /\ existsb (snapshotMisses ptrSize pid) tr = true
                       /\ CommandLine res = ""%string /\ Exe res = ""%string
                   end
    else
      existsb limitedOpenGranted tr = false
      /\ existsb limitedOpenDenied tr = false
      /\ existsb (snapshotMisses ptrSize pid) tr = false
      /\ (out = Panicked
          \/ exists info, out = Returned (info, None) /\ Env info = Some []).
Proof.
  intros tr out Hrun.
  apply GetProcessDetailedInfo_shape in Hrun
    as (handle & err & full & Hfull & Huses & Hcases). cbn zeta in Hcases.
  assert (Hex : forall q : event -> bool,
             (forall ev, usesHandle handle ev = true -> q ev = false) ->
             existsb q full = false)
    by (intros q Hq; now apply (uses_excludes handle)).
  pose proof (Hex limitedOpen
                (fun ev H => proj1 (proj2 (usesHandle_not_open ptrSize pid handle ev H))))
    as Hlo.
  pose proof (Hex limitedOpenGranted
                (fun ev H => proj1 (proj2 (proj2 (usesHandle_not_open ptrSize pid handle ev H)))))
    as Hlg.
  pose proof (Hex limitedOpenDenied
                (fun ev H => proj1 (proj2 (proj2 (proj2 (usesHandle_not_open ptrSize pid handle ev H))))))
    as Hld.
  pose proof (Hex (snapshotMisses ptrSize pid)
                (fun ev H => proj1 (proj2 (proj2 (proj2 (proj2 (usesHandle_not_open ptrSize pid handle ev H)))))))
    as Hsm.
  assert (Hrel : forall q : event -> bool,
             q (EvCloseHandle handle) = false ->
             existsb q match err with
                       | None => [EvCloseHandle handle]
                       | Some _ => []
                       end = false)
    by (intros q Hq; destruct err; cbn; rewrite ?Hq; reflexivity).
  destruct Hcases as [(-> & -> & Hout) | (info & second & -> & Hsecond & Hc & He & Hw & Hv)].
  - cbn [existsb]. rewrite !existsb_app, Hlo, Hlg, Hld, Hsm. cbn.
    repeat split; auto.
  - destruct (limitedOrSnapshot_result info second out Hc He Hw Hv Hsecond)
      as (Hopen & Hden & res & e & -> & Hcwd & Hres).
    cbn [existsb]. rewrite !existsb_app, Hlo, Hlg, Hld, Hsm, Hopen.
    rewrite !Hrel by reflexivity.
    assert (H1 : forall h e0, limitedOpen (EvOpenProcess fullAccessMask false (uint32 pid) h e0) = false)
      by reflexivity.
    assert (H2 : forall h e0, limitedOpenGranted (EvOpenProcess fullAccessMask false (uint32 pid) h e0) = false)
      by (intros h [e0 |]; reflexivity).
    assert (H3 : forall h e0, limitedOpenDenied (EvOpenProcess fullAccessMask false (uint32 pid) h e0) = false)
      by (intros h [e0 |]; reflexivity).
    rewrite H1, H2, H3. cbn [orb snapshotMisses]. rewrite !orb_false_r.
    split; [exact Hden |]. exists res, e. split; [reflexivity |].
    split; [exact Hcwd |].
    destruct (existsb limitedOpenGranted second); [exact Hres |].
    destruct Hres as [Henv Hres]. split; [exact Henv |].
    destruct e as [e |]; [| exact Hres].
    destruct Hres as ((h & Hin) & Hrest). split; [| exact Hrest].
    exists h. right. apply in_or_app. right. apply in_or_app. now left.
Qed.

End FallbackFacts.

(** X12: [GetProcessDetailedInfo] returns an error in one case only: the
    limited-access open is denied and the snapshot is invalid or has no
    entry for the PID.  The error is then the one of the limited-access
    open, and the info holds no command line, image, directory or
    environment. *)
Theorem GetProcessDetailedInfo_error :
  forall (R : Runtime) (ptrSize pid : Z) (tr : list event)
         (out : outcome (Win32ProcessInfo * option error)),
    runs (GetProcessDetailedInfo ptrSize pid) tr out ->
    match out with
    | Returned (info, Some e) =>
        (exists handle,
            In (EvOpenProcess PROCESS_QUERY_LIMITED_INFORMATION false
                  (uint32 pid) handle (Some e)) tr)
        /\ existsb (snapshotMisses ptrSize pid) tr = true
        /\ CommandLine info = ""%string /\ Exe info = ""%string
        /\ Cwd info = ""%string /\ Env info = None
    | Returned (info, None) =>
        existsb limitedOpenDenied tr = false
        \/ existsb (snapshotMisses ptrSize pid) tr = false
    | Panicked => True
    end.
Proof.
  intros R ptrSize pid tr out Hrun.
  pose proof (GetProcessDetailedInfo_fallback ptrSize pid tr out Hrun) as H.
  destruct (existsb limitedOpen tr).
  - destruct H as (Hden & res & err & -> & Hcwd & H).
    destruct (existsb limitedOpenGranted tr).
    + destruct H as (-> & _). left. exact Hden.
    + destruct H as (Henv & H). destruct err as [e |].
      * destruct H as (Hin & Hmiss & Hc & He). auto 7.
      * right. apply H.
  - destruct H as (_ & Hden & _ & [-> | (info & -> & _)]); auto.
Qed.

Lemma GetProcessDetailedInfo_error_witness :
  match snd (exec accessDenied [] (GetProcessDetailedInfo (R := AsciiRuntime) 8 7)) with
  | Returned (info, Some e) =>
      (exists handle,
          In (EvOpenProcess PROCESS_QUERY_LIMITED_INFORMATION false
                (uint32 7) handle (Some e))
             (fst (exec accessDenied [] (GetProcessDetailedInfo (R := AsciiRuntime) 8 7))))
      /\ existsb (snapshotMisses 8 7)
           (fst (exec accessDenied [] (GetProcessDetailedInfo (R := AsciiRuntime) 8 7)))
         = true
      /\ CommandLine info = ""%string /\ Exe info = ""%string
      /\ Cwd info = ""%string /\ Env info = None
  | Returned (info, None) =>
      existsb limitedOpenDenied
        (fst (exec accessDenied [] (GetProcessDetailedInfo (R := AsciiRuntime) 8 7)))
      = false
      \/ existsb (snapshotMisses 8 7)
           (fst (exec accessDenied [] (GetProcessDetailedInfo (R := AsciiRuntime) 8 7)))
         = false
  | Panicked => True
  end.
Proof.
  apply (GetProcessDetailedInfo_error AsciiRuntime 8 7).
  apply exec_runs.
Defined.

(** X13: when the limited-access open is granted the call succeeds, with an
    empty working directory, an empty (non-nil) environment, and as
    command line the base name of the image path, or nothing when the
    image path could not be queried. *)
Theorem GetProcessDetailedInfo_limited_tier :
  forall (R : Runtime) (ptrSize pid : Z) (tr : list event)
         (out : outcome (Win32ProcessInfo * option error)),
    runs (GetProcessDetailedInfo ptrSize pid) tr out ->
    existsb limitedOpenGranted tr = true ->
    exists info,
      out = Returned (info, None)
      /\ Cwd info = ""%string
      /\ Env info = Some []
      /\ CommandLine info
         = (if String.eqb (Exe info) "" then ""%string
            else filepath_Base (Exe info)).
Proof.
  intros R ptrSize pid tr out Hrun Hgranted.
  pose proof (GetProcessDetailedInfo_fallback ptrSize pid tr out Hrun) as H.
  destruct (existsb limitedOpen tr).
  - destruct H as (_ & res & err & -> & Hcwd & H). rewrite Hgranted in H.
    destruct H as (-> & Henv & Hcmd). eauto.
  - destruct H as (H & _). congruence.
Qed.

Lemma GetProcessDetailedInfo_limited_tier_witness :
  exists info,
    snd (exec controlBlockZero [] (GetProcessDetailedInfo (R := AsciiRuntime) 8 42))
    = Returned (info, None)
    /\ Cwd info = ""%string
    /\ Env info = Some []
    /\ CommandLine info
       = (if String.eqb (Exe info) "" then ""%string
          else filepath_Base (Runtime := AsciiRuntime) (Exe info)).
Proof.
  apply (GetProcessDetailedInfo_limited_tier AsciiRuntime 8 42
           (fst (exec controlBlockZero []
                   (GetProcessDetailedInfo (R := AsciiRuntime) 8 42)))).
  - apply exec_runs.
  - reflexivity.
Defined.

(** ** [ReadProcess] *)

Section ReadProcessFacts.
Context {R : Runtime}.
Variable ptrSize : Z.
Variables Ports Addrs : Type.
Variable noPorts : Ports.
Variable noAddrs : Addrs.
Variable GetListeningPortsForPID : Z -> Ports * Addrs.
Variable readUser : Z -> string.
Variable findLongHexID : string -> string.
Variable resolveContainerName : string -> string -> string.
Variable host : Host.
Variable fs : FileSystem.
Variable os_StatError : string -> option error.
Variable os_IsNotExist : error -> bool.

(** [ReadProcess] makes the calls of [GetProcessDetailedInfo] and no
    other; it passes its error on with a zero [Process], and builds the
    [Process] from its info otherwise. *)
Lemma ReadProcess_runs :
  forall (pid : Z) (tr : list event)
         (out : outcome (model.Process Ports Addrs * option error)),
    runs (ReadProcess ptrSize noPorts noAddrs GetListeningPortsForPID readUser
            findLongHexID resolveContainerName host fs os_StatError
            os_IsNotExist pid) tr out ->
    exists out0,
      runs (GetProcessDetailedInfo ptrSize pid) tr out0
      /\ match out0 with
         | Panicked => out = Panicked
         | Returned (info, Some e) =>
             out = Returned (zeroProcess noPorts noAddrs, Some e)
         | Returned (info, None) =>
             out = Panicked
             \/ exists p,
                  out = Returned (p, None)
                  /\ model.PID p = pid
                  /\ model.PPID p = PPID info
                  /\ model.Cmdline p = CommandLine info
                  /\ model.Exe p = Exe info
                  /\ model.WorkingDir p = Cwd info
                  /\ model.Env p = Env info
                  /\ model.Command p
                     = (if String.eqb (Exe info) "" then ""%string
                        else filepath_Base (Exe info))
                  /\ (model.GitRepo p, model.GitBranch p)
                     = detectGitInfo fs (Cwd info)
                  /\ model.Health p = "healthy"%string
                  /\ model.Forked p = "unknown"%string
         end.
Proof.
  intros pid tr out Hrun. unfold ReadProcess in Hrun.
  apply runs_bind in Hrun as [(tr1 & r & tr2 & H1 & Hrun & ->) | [H1 ->]].
  - exists (Returned r). destruct r as [info [e |]].
    + cbn in Hrun. destruct Hrun as [-> ->]. rewrite app_nil_r. auto.
    + destruct (GetListeningPortsForPID pid) as [ports addrs].
      destruct (detectContainer findLongHexID resolveContainerName
                  (CommandLine info)) as [container |].
      * destruct (detectGitInfo fs (Cwd info)) as [gitRepo gitBranch] eqn:Hgit.
        cbn in Hrun. destruct Hrun as [-> ->]. rewrite app_nil_r.
        split; [exact H1 |]. right. eexists. split; [reflexivity |].
        repeat split; try reflexivity;
          try (cbn; destruct (String.eqb (Exe info) ""); reflexivity);
          try (symmetry; exact Hgit).
      * cbn in Hrun. destruct Hrun as [-> ->]. rewrite app_nil_r. auto.
  - exists Panicked. auto.
Qed.

End ReadProcessFacts.



(** X15: a process that the full-access tier did not resolve has no working
    directory and therefore no git repository and branch, and its command
    line is only its image: the base name of the image path after the
    limited-access tier (the same as its short name), the image file name
    of the snapshot otherwise. *)
Theorem ReadProcess_below_full_access :
  forall (R : Runtime) (ptrSize : Z) (Ports Addrs : Type)
         (noPorts : Ports) (noAddrs : Addrs)
         (GetListeningPortsForPID : Z -> Ports * Addrs)
         (readUser : Z -> string) (findLongHexID : string -> string)
         (resolveContainerName : string -> string -> string)
         (host : Host) (fs : FileSystem)
         (os_StatError : string -> option error)
         (os_IsNotExist : error -> bool)
         (pid : Z) (tr : list event)
         (out : outcome (model.Process Ports Addrs * option error)),
    runs (ReadProcess ptrSize noPorts noAddrs GetListeningPortsForPID readUser
            findLongHexID resolveContainerName host fs os_StatError
            os_IsNotExist pid) tr out ->
    existsb limitedOpen tr = true ->
    match out with
    | Returned (p, None) =>
        model.WorkingDir p = ""%string
        /\ model.GitRepo p = ""%string /\ model.GitBranch p = ""%string
        /\ if existsb limitedOpenGranted tr
           then model.Cmdline p = model.Command p /\ model.Env p = Some []
           else model.Cmdline p = model.Exe p /\ model.Env p = None
    | _ => True
    end.
Proof.
  intros R ptrSize Ports Addrs noPorts noAddrs GetListeningPortsForPID readUser
         findLongHexID resolveContainerName host fs os_StatError os_IsNotExist
         pid tr out Hrun Hlimited.
  apply ReadProcess_runs in Hrun as (out0 & Hrun0 & Hout).
  pose proof (GetProcessDetailedInfo_fallback ptrSize pid tr out0 Hrun0) as H.
  rewrite Hlimited in H.
  destruct H as (_ & res & err & -> & Hcwd & H).
  destruct err as [e |]; [subst out; exact I |].
  destruct Hout as [-> | (p & -> & _ & _ & Hcmdline & Hexe & Hwd & Hpenv & Hcmd & Hgit & _)];
    [exact I |].
  rewrite Hcwd in Hgit, Hwd. cbn in Hgit. injection Hgit as Hrepo Hbranch.
  rewrite Hwd, Hrepo, Hbranch, Hcmdline, Hcmd, Hexe, Hpenv.
  repeat split.
  destruct (existsb limitedOpenGranted tr).
  - destruct H as (_ & Henv & Hc). split; [exact Hc | exact Henv].
  - destruct H as (Henv & Hc & _). split; [exact Hc | exact Henv].
Qed.

Lemma ReadProcess_below_full_access_witness :
  match snd (exec accessDenied []
               (ReadProcess (R := AsciiRuntime) 8 tt tt (fun _ => (tt, tt))
                  (fun _ => "SYSTEM"%string) (fun _ => ""%string)
                  (fun _ _ => ""%string) launchctlUnlimited (witrCheckout "")
                  (fun _ => None) (fun _ => false) 42)) with
  | Returned (p, None) =>
      model.WorkingDir p = ""%string
      /\ model.GitRepo p = ""%string /\ model.GitBranch p = ""%string
      /\ model.Cmdline p = model.Exe p /\ model.Env p = None
  | _ => True
  end.
Proof.
  apply (ReadProcess_below_full_access AsciiRuntime 8 unit unit tt tt
           (fun _ => (tt, tt)) (fun _ => "SYSTEM"%string) (fun _ => ""%string)
           (fun _ _ => ""%string) launchctlUnlimited (witrCheckout "")
           (fun _ => None) (fun _ => false) 42
           (fst (exec accessDenied []
                   (ReadProcess (R := AsciiRuntime) 8 tt tt (fun _ => (tt, tt))
                      (fun _ => "SYSTEM"%string) (fun _ => ""%string)
                      (fun _ _ => ""%string) launchctlUnlimited (witrCheckout "")
                      (fun _ => None) (fun _ => false) 42)))).
  - apply exec_runs.
  - reflexivity.
Defined.

(** ** The output package *)

(** X16: [ToWarningsJSON] and [ToEnvJSON] give the process the same name,
    and [RenderEnvOnly] prints that name too, except for a result with no
    ancestry and no command: the JSON forms then say [unknown] where the
    text form prints an empty name. *)
Theorem output_process_name :
  forall (Ports Addrs : Type)
         (ColorReset ColorBlue ColorRed ColorGreen ColorBold : string)
         (r : model.Result Ports Addrs),
    let anonymous :=
      (List.length (model.Ancestry r) =? 0)%nat
      && String.eqb (model.Command (model.Result_Process r)) "" in
    warning_Process (warningsOf r) = env_Process (envOf r)
    /\ hd ""%string
         (RenderEnvOnly ColorReset ColorBlue ColorRed ColorGreen ColorBold r false)
       = ("Process     : "
          ++ (if anonymous then "" else env_Process (envOf r))
          ++ " (pid " ++ strconv_Itoa (model.PID (model.Result_Process r))
          ++ ")" ++ lineFeed)%string
    /\ if anonymous then env_Process (envOf r) = "unknown"%string
       else env_Process (envOf r) = procNameOfRender r.
Proof.
  intros Ports Addrs ColorReset ColorBlue ColorRed ColorGreen ColorBold r anonymous.
  split; [reflexivity |].
  unfold anonymous, RenderEnvOnly, envOf, procNameOrUnknown, procNameOfRender.
  cbn [hd env_Process].
  destruct (model.Ancestry r) as [| p ancestry]; cbn [List.length Nat.eqb Nat.ltb Nat.leb andb].
  - destruct (String.eqb_spec (model.Command (model.Result_Process r)) "")
      as [Hempty | Hcmd]; cbn [negb].
    + rewrite Hempty. split; reflexivity.
    + split; reflexivity.
  - split; reflexivity.
Qed.

(** ** Falling through to the limited-access tier *)


Section FallThrough.
Context {R : Runtime}.
Variable ptrSize : Z.
Variable pid : Z.

(** After the failure of the full-access tier no call on its handle is
    accepted. *)
Lemma tierRun_after_failure :
  forall (handle : Z) (tr : list event) (st : tierState),
    forallb (usesHandle handle) tr = true ->
    tierRun ptrSize pid (TierFailed FullAccess) tr = Some st ->
    tr = [] /\ st = TierFailed FullAccess.
Proof.
  intros handle tr st Huses Hrun. destruct tr as [| ev tr].
  - cbn in Hrun. injection Hrun as <-. auto.
  - cbn [forallb] in Huses. apply andb_prop in Huses as [Hev _].
    unfold usesHandle in Hev.
    destruct ev; cbn in Hev; try discriminate; cbn in Hrun; discriminate.
Qed.

(** The full-access tier has failed exactly when one of its calls gave a
    failing answer. *)
Lemma fullTierFailure_events :
  forall (handle : Z) (tr : list event) (st : tierState),
    forallb (usesHandle handle) tr = true ->
    tierRun ptrSize pid (TierInProgress FullAccess) tr = Some st ->
    existsb fullTierFailure tr
    = match st with
      | TierFailed FullAccess => true
      | _ => false
      end
    /\ (st = TierFailed FullAccess \/ st = TierInProgress FullAccess).
Proof.
  intros handle tr. induction tr as [| ev tr IH]; intros st Huses Hrun.
  - cbn in Hrun. injection Hrun as <-. auto.
  - cbn [forallb] in Huses. apply andb_prop in Huses as [Hev Htr].
    cbn [tierRun] in Hrun. cbn [existsb].
    assert (Hstay : tierStep ptrSize pid (TierInProgress FullAccess) ev
                    = Some (TierInProgress FullAccess) ->
                    fullTierFailure ev = false ->
                    existsb fullTierFailure tr
                    = match st with
                      | TierFailed FullAccess => true
                      | _ => false
                      end
                    /\ (st = TierFailed FullAccess
                        \/ st = TierInProgress FullAccess)).
    { intros Hstep Hok. rewrite Hstep in Hrun. now apply IH. }
    assert (Hfail : tierStep ptrSize pid (TierInProgress FullAccess) ev
                    = Some (TierFailed FullAccess) ->
                    fullTierFailure ev = true ->
                    fullTierFailure ev || existsb fullTierFailure tr
                    = match st with
                      | TierFailed FullAccess => true
                      | _ => false
                      end
                    /\ (st = TierFailed FullAccess
                        \/ st = TierInProgress FullAccess)).
    { intros Hstep Hbad. rewrite Hstep in Hrun.
      destruct (tierRun_after_failure handle tr st Htr Hrun) as [-> ->].
      rewrite Hbad. auto. }
    unfold usesHandle in Hev.
    destruct ev; cbn in Hev; try discriminate;
      cbn [fullTierFailure tierStep] in *;
      try match type of Hrun with
          | context [if ?b then _ else _] => destruct b
          end;
      first [ apply Hfail; reflexivity
            | destruct (Hstay eq_refl eq_refl) as [H1 H2]; split; assumption
            | discriminate ].
Qed.

Lemma limitedOrSnapshot_no_full_failure :
  forall (info : Win32ProcessInfo) (tr : list event)
         (out : outcome (Win32ProcessInfo * option error)),
    runs (limitedOrSnapshot ptrSize pid info) tr out ->
    existsb fullTierFailure tr = false /\ existsb limitedOpen tr = true.
Proof.
  intros info tr out Hrun.
  apply limitedOrSnapshot_shape in Hrun
    as (handle & [e |] & snap & entries & Hshape); cbn zeta in Hshape.
  - destruct Hshape as [-> _].
    destruct (snap =? InvalidHandle ptrSize); cbn; auto.
  - destruct Hshape as (ret & creation & ret' & written & info' & -> & _).
    destruct (snap =? InvalidHandle ptrSize); cbn; auto.
Qed.

End FallThrough.

(** X17: the limited-access open is made exactly in the runs in which a
    call of the full-access tier gave a failing answer (open denied,
    query failed, zero control-block address, control block or parameters
    unreadable).  A parameters string that cannot be read does not make
    the run fall through. *)
Theorem GetProcessDetailedInfo_falls_through :
  forall (R : Runtime) (ptrSize pid : Z) (tr : list event)
         (out : outcome (Win32ProcessInfo * option error)),
    runs (GetProcessDetailedInfo ptrSize pid) tr out ->
    existsb limitedOpen tr = existsb fullTierFailure tr.
Proof.
  intros R ptrSize pid tr out Hrun. unfold GetProcessDetailedInfo in Hrun.
  cbn [runs bind call] in Hrun.
  destruct Hrun as ([handle [e |]] & tr' & -> & Hrun); cbn [bind] in Hrun;
    cbn [observed fst snd existsb limitedOpen fullTierFailure].
  - destruct (limitedOrSnapshot_no_full_failure ptrSize pid _ _ _ Hrun)
      as [Hnone Hopen].
    rewrite Hnone, Hopen, Z.eqb_refl. reflexivity.
  - change (fullAccessMask =? PROCESS_QUERY_LIMITED_INFORMATION) with false.
    cbn [orb].
    apply runs_defer in Hrun as (tr0 & Hrun & ->).
    rewrite !existsb_app. cbn [existsb limitedOpen fullTierFailure orb].
    rewrite !orb_false_r.
    assert (Hfull : forall trF outF,
               runs (getFullProcessInfo ptrSize handle pid zeroWin32ProcessInfo)
                    trF outF ->
               existsb limitedOpen trF = false
               /\ exists st,
                    tierRun ptrSize pid (TierInProgress FullAccess) trF = Some st
                    /\ existsb fullTierFailure trF
                       = match st with
                         | TierFailed FullAccess => true
                         | _ => false
                         end
                    /\ match outF with
                       | Returned (_, Some _) => st = TierFailed FullAccess
                       | _ => st = TierInProgress FullAccess
                       end).
    { intros trF outF HF.
      pose proof (getFullProcessInfo_uses ptrSize handle pid _ _ _ HF) as Huses.
      split.
      - apply (uses_excludes handle); [| exact Huses].
        intros ev Hev. now apply (usesHandle_not_open ptrSize pid handle ev Hev).
      - destruct (getFullProcessInfo_runs ptrSize pid handle pid _ _ _ HF)
          as [_ [(info' & e & -> & _ & Hst)
                | [(info' & -> & _ & Hst) | (-> & _ & Hst)]]];
          eexists; (split; [exact Hst |]);
          (split; [exact (proj1 (fullTierFailure_events ptrSize pid handle _ _ Huses Hst))
                  | reflexivity]). }
    apply runs_bind in Hrun as [(tr1 & r & tr2 & H1 & Hrun & ->) | [H1 ->]].
    + destruct (Hfull _ _ H1) as (Hno & st & _ & Hfail & Hst).
      rewrite !existsb_app, Hno, Hfail.
      destruct r as [info [err |]]; subst st.
      * destruct (limitedOrSnapshot_no_full_failure ptrSize pid _ _ _ Hrun)
          as [Hnone Hopen].
        rewrite Hopen. reflexivity.
      * cbn in Hrun. destruct Hrun as [-> _]. reflexivity.
    + destruct (Hfull _ _ H1) as (Hno & st & _ & Hfail & Hst).
      rewrite Hno, Hfail. subst st. reflexivity.
Qed.

Lemma GetProcessDetailedInfo_falls_through_witness :
  existsb limitedOpen
    (fst (exec stringsUnreadable [] (GetProcessDetailedInfo (R := AsciiRuntime) 8 42)))
  = existsb fullTierFailure
      (fst (exec stringsUnreadable [] (GetProcessDetailedInfo (R := AsciiRuntime) 8 42))).
Proof.
  apply (GetProcessDetailedInfo_falls_through AsciiRuntime 8 42 _
           (snd (exec stringsUnreadable []
                   (GetProcessDetailedInfo (R := AsciiRuntime) 8 42)))).
  apply exec_runs.
Defined.

(** Three strings that cannot be read: the full-access tier resolves the
    run all the same, with the three fields empty. *)
Example unreadable_strings_do_not_fall_through :
  exec stringsUnreadable [] (GetProcessDetailedInfo (R := AsciiRuntime) 8 42)
  = ([EvOpenProcess fullAccessMask false 42 11 None;
      EvGetProcessTimes 11 0 {| LowDateTime := 0; HighDateTime := 0 |};
      EvNtQueryInformationProcess 11 0
        {| ExitStatus := 0; PebBaseAddress := 4096; AffinityMask := 0;
           BasePriority := 0; UniqueProcessId := 42;
           InheritedFromUniqueProcessId := 4 |};
      EvReadPointer 11 4128 1 8192;
      EvReadParams 11 8192 1
        {| Reserved1 := []; Reserved2 := [];
           CurrentDirectoryPath :=
             {| Length := 6; MaximumLength := 8; Buffer := 12288 |};
           CurrentDirectoryHandle := 0;
           DllPath := noString;
           ImagePathName :=
             {| Length := 10; MaximumLength := 12; Buffer := 12544 |};
           params_CommandLine :=
             {| Length := 10; MaximumLength := 12; Buffer := 12800 |};
           Environment := 0 |};
      EvReadUint16s 11 12288 6 0 [];
      EvReadUint16s 11 12800 10 0 [];
      EvReadUint16s 11 12544 10 0 [];
      EvCloseHandle 11],
     Returned
       ({| PPID := 4; CommandLine := ""%string; Exe := ""%string;
           Cwd := ""%string; Env := Some []; StartedAt := zeroTime |}, None)).
Proof. vm_compute. reflexivity. Qed.
